(** * VWAP mean-reversion strategy: a shallow embedding of VWAP.h / VWAP.cpp

    The strategy object of the C++ source is a record of fields that
    every callback reads and writes.  Each method becomes a function on
    that record; the calls a method makes to the host (new order,
    cancel, cancel-all) are returned as a list of actions, and a method
    that can run into undefined behaviour (front()/back() of an empty
    deque) returns an [option].

    Log lines are not modelled: they never influence a field or an
    order action. *)

From Stdlib Require Import ZArith List String Bool Lia.
From Stdlib Require Import Floats.
From Stdlib Require Import QArith Qcanon.
From Stdlib Require Import Sorting.Sorted.
Import ListNotations.

Local Open Scope Z_scope.

(** ** The C++ [int]: 32 bits, two's complement

    Values are carried as [Z]; every arithmetic operation reduces its
    mathematical result back into the range of [int]. *)

Module Int32.

Definition min_int : Z := - 2 ^ 31.
Definition max_int : Z := 2 ^ 31 - 1.

Definition in_range (z : Z) : Prop := min_int <= z <= max_int.

Definition wrap (z : Z) : Z := (z + 2 ^ 31) mod 2 ^ 32 - 2 ^ 31.

Definition add (a b : Z) : Z := wrap (a + b).
Definition sub (a b : Z) : Z := wrap (a - b).

(** [abs] of <cstdlib> on an [int]. *)
Definition abs (a : Z) : Z := wrap (Z.abs a).

End Int32.

(** ** The C++ [double]

    The arithmetic the source uses on [double] is gathered in one
    interface, so that the same embedding can be read with IEEE 754
    binary64 numbers (what the compiled program computes with) and with
    exact rational numbers (what the comments and the documentation
    reason with). *)

Class Double (D : Type) : Type := {
  of_int : Z -> D;            (* conversion int -> double *)
  dadd : D -> D -> D;
  dsub : D -> D -> D;
  dmul : D -> D -> D;
  ddiv : D -> D -> D;
  dneg : D -> D;
  deqb : D -> D -> bool;      (* == *)
  dltb : D -> D -> bool;      (* <  *)
  dleb : D -> D -> bool       (* <= *)
}.

(** Conversion of an [int] to binary64: exact, since |z| <= 2^31. *)
Definition double_of_int (z : Z) : float :=
  if z <? 0
  then PrimFloat.opp (PrimFloat.of_uint63 (Uint63.of_Z (- z)))
  else PrimFloat.of_uint63 (Uint63.of_Z z).

#[export] Instance ieee754 : Double float := {|
  of_int := double_of_int;
  dadd := PrimFloat.add;
  dsub := PrimFloat.sub;
  dmul := PrimFloat.mul;
  ddiv := PrimFloat.div;
  dneg := PrimFloat.opp;
  deqb := PrimFloat.eqb;
  dltb := PrimFloat.ltb;
  dleb := PrimFloat.leb
|}.

(** Exact arithmetic on canonical rationals (division by zero is zero
    there; the source guards both of its divisions).  This is not the
    arithmetic of the program: it only shows that the laws [ExactSums]
    below can be met, where a statement is made under them. *)
#[export] Instance exact : Double Qc := {|
  of_int := fun z => Q2Qc (inject_Z z);
  dadd := Qcplus;
  dsub := Qcminus;
  dmul := Qcmult;
  ddiv := Qcdiv;
  dneg := Qcopp;
  deqb := Qc_eq_bool;
  dltb := fun a b => negb (Qle_bool b a);
  dleb := fun a b => Qle_bool a b
|}.

(** The laws of exact arithmetic that the running sums depend on:
    addition is commutative and associative, and subtraction undoes it.
    Binary64 numbers do not obey them ([(1e16 + 1) - 1e16] is [0]
    there). *)
Class ExactSums (D : Type) `{Double D} : Prop := {
  dadd_comm : forall a b : D, dadd a b = dadd b a;
  dadd_assoc : forall a b c : D, dadd a (dadd b c) = dadd (dadd a b) c;
  dsub_add_cancel : forall a b : D, dsub (dadd a b) a = b
}.

(** ** Data model (VWAP.h) *)

(** [Utilities::TimeType] is a boost [ptime]: a count of clock ticks.
    A [time_duration] is a difference of two such counts. *)
Definition TimeType : Type := Z.

Section Strategy.

Context {D : Type} `{Double D}.

(** Ticks per second of the clock ([time_duration::ticks_per_second()]);
    the boost configuration that fixes it is not part of the sources. *)
Variable ticks_per_second : Z.

(** [boost::posix_time::seconds(n)] *)
Definition seconds (n : Z) : Z := n * ticks_per_second.

(** [time_duration::total_seconds()]: integer division, truncating. *)
Definition total_seconds (d : Z) : Z := Z.quot d ticks_per_second.

Record VWAPTradeRecord : Type := {
  timestamp : TimeType;
  price : D;
  volume : Z
}.

(** The private fields of [VWAPStrategy]. *)
Record VWAPStrategy : Type := {
  vwap_window_ : list VWAPTradeRecord;   (* std::deque, front = head *)
  cumulative_pv_ : D;
  cumulative_volume_ : Z;
  vwap_window_seconds_ : Z;
  entry_threshold_bps_ : D;
  max_inventory_ : Z;
  position_size_ : Z;
  debug_ : bool
}.

(** The three fields of the rolling window are always written together. *)
Definition with_window (s : VWAPStrategy)
    (w : list VWAPTradeRecord) (pv : D) (vol : Z) : VWAPStrategy :=
  {| vwap_window_ := w;
     cumulative_pv_ := pv;
     cumulative_volume_ := vol;
     vwap_window_seconds_ := vwap_window_seconds_ s;
     entry_threshold_bps_ := entry_threshold_bps_ s;
     max_inventory_ := max_inventory_ s;
     position_size_ := position_size_ s;
     debug_ := debug_ s |}.

(** ** Rolling VWAP engine *)

(** [VWAPStrategy::OnResetStrategyState] *)
Definition OnResetStrategyState (s : VWAPStrategy) : VWAPStrategy :=
  with_window s [] (of_int 0) 0.

(** The contribution [price * volume] of a record ([volume] is converted
    to [double] by the multiplication). *)
Definition pv_of (r : VWAPTradeRecord) : D := dmul (price r) (of_int (volume r)).

(** [VWAPStrategy::AddTradeToWindow] *)
Definition AddTradeToWindow (p : D) (v : Z) (t : TimeType)
    (s : VWAPStrategy) : VWAPStrategy :=
  let record := {| timestamp := t; price := p; volume := v |} in
  with_window s
    (vwap_window_ s ++ [record])
    (dadd (cumulative_pv_ s) (dmul p (of_int v)))
    (Int32.add (cumulative_volume_ s) v).

(** The [while] loop of [PruneOldTrades]: each turn pops the front
    record, so the loop is a recursion on the deque.  (The counter
    [removed_count] only feeds a log line.) *)
Fixpoint prune_loop (cutoff_time : TimeType) (w : list VWAPTradeRecord)
    (pv : D) (vol : Z) : list VWAPTradeRecord * D * Z :=
  match w with
  | [] => (w, pv, vol)
  | old_record :: rest =>
      if timestamp old_record <? cutoff_time
      then prune_loop cutoff_time rest
             (dsub pv (dmul (price old_record) (of_int (volume old_record))))
             (Int32.sub vol (volume old_record))
      else (w, pv, vol)
  end.

(** [VWAPStrategy::PruneOldTrades] *)
Definition PruneOldTrades (cutoff_time : TimeType)
    (s : VWAPStrategy) : VWAPStrategy :=
  match prune_loop cutoff_time (vwap_window_ s)
          (cumulative_pv_ s) (cumulative_volume_ s) with
  | (w, pv, vol) => with_window s w pv vol
  end.

(** [VWAPStrategy::GetVWAP] *)
Definition GetVWAP (s : VWAPStrategy) : D :=
  if cumulative_volume_ s =? 0 then of_int 0
  else ddiv (cumulative_pv_ s) (of_int (cumulative_volume_ s)).

(** [deque::front] and [deque::back]: undefined on an empty deque. *)
Definition front (w : list VWAPTradeRecord) : option VWAPTradeRecord :=
  hd_error w.

Definition back (w : list VWAPTradeRecord) : option VWAPTradeRecord :=
  match w with
  | [] => None
  | r :: rest => Some (last rest r)
  end.

Definition MIN_TRADE_REQUIRED : Z := 3.

(** [VWAPStrategy::IsVWAPReady].  [None] is the undefined behaviour of
    reading [back()] and [front()] of an empty deque. *)
Definition IsVWAPReady (s : VWAPStrategy) : option bool :=
  if MIN_TRADE_REQUIRED <=? Z.of_nat (List.length (vwap_window_ s)) then Some true
  else
    match back (vwap_window_ s), front (vwap_window_ s) with
    | Some b, Some f =>
        let window_span := timestamp b - timestamp f in
        Some (vwap_window_seconds_ s <=? total_seconds window_span)
    | _, _ => None
    end.

(** ** Readiness and deviation evaluator *)

(** What the source reads of a [Quote]: the validity of the whole quote
    and of each side, and the two prices. *)
Record Quote : Type := {
  IsValid : bool;
  bid : D;
  ask : D;
  bid_side_IsValid : bool;
  ask_side_IsValid : bool
}.

Inductive InstrumentType : Type :=
  | INSTRUMENT_TYPE_EQUITY
  | INSTRUMENT_TYPE_FUTURE.

Record Instrument : Type := {
  symbol : string;
  type : InstrumentType;
  top_quote : Quote
}.

(** [VWAPStrategy::CalculateMidPrice] *)
Definition CalculateMidPrice (instrument : Instrument) : D :=
  ddiv (dadd (bid (top_quote instrument)) (ask (top_quote instrument)))
       (of_int 2).

(** [VWAPStrategy::CalculateDeviation] *)
Definition CalculateDeviation (mid_price vwap : D) : D :=
  if deqb vwap (of_int 0) then of_int 0
  else dmul (ddiv (dsub mid_price vwap) vwap) (of_int 10000).

(** ** Position decision

    Step 5 of [OnTrade].  The if-chain chooses a branch, named here after
    the line the branch logs; the branch decides what the local
    [desired_position], which starts at [0], is assigned. *)
Inductive Signal : Type :=
  | EXIT_LONG
  | EXIT_SHORT
  | ENTRY_BUY
  | ENTRY_SELL
  | NO_SIGNAL.

Definition signal (s : VWAPStrategy)
    (current_position : Z) (deviation_bps : D) : Signal :=
  if (0 <? current_position) && dleb (of_int 0) deviation_bps then
    EXIT_LONG
  else if (current_position <? 0) && dleb deviation_bps (of_int 0) then
    EXIT_SHORT
  else if Int32.abs current_position <? max_inventory_ s then
    if dltb deviation_bps (dneg (entry_threshold_bps_ s)) then
      ENTRY_BUY
    else if dltb (entry_threshold_bps_ s) deviation_bps then
      ENTRY_SELL
    else NO_SIGNAL
  else NO_SIGNAL.

Definition desired_position (s : VWAPStrategy)
    (current_position : Z) (deviation_bps : D) : Z :=
  match signal s current_position deviation_bps with
  | EXIT_LONG => 0
  | EXIT_SHORT => 0
  | ENTRY_BUY => Int32.add current_position (position_size_ s)
  | ENTRY_SELL => Int32.sub current_position (position_size_ s)
  | NO_SIGNAL => 0        (* no assignment: int desired_position = 0; *)
  end.

(** ** Order sizing and adjustment *)

Inductive OrderSide : Type := ORDER_SIDE_BUY | ORDER_SIDE_SELL.
Inductive MarketCenterID : Type :=
  | MARKET_CENTER_ID_NASDAQ
  | MARKET_CENTER_ID_CME_GLOBEX.
Inductive OrderTIF : Type := ORDER_TIF_DAY.
Inductive OrderType : Type := ORDER_TYPE_MARKET | ORDER_TYPE_LIMIT.

(** Modelled from the spec: [IsBuySide] and [IsSellSide] of the host
    library are not part of the sources; a working order is a buy or a
    sell. *)
Definition IsBuySide (side : OrderSide) : bool :=
  match side with ORDER_SIDE_BUY => true | ORDER_SIDE_SELL => false end.

Definition IsSellSide (side : OrderSide) : bool :=
  match side with ORDER_SIDE_SELL => true | ORDER_SIDE_BUY => false end.

Record Order : Type := {
  order_id : Z;
  order_side : OrderSide
}.

(** The arguments of the [OrderParams] constructor, in its order. *)
Record OrderParams : Type := {
  params_instrument : string;
  params_quantity : Z;
  params_price : D;
  params_market_center : MarketCenterID;
  params_side : OrderSide;
  params_tif : OrderTIF;
  params_type : OrderType
}.

(** The calls made on [trade_actions()]. *)
Inductive TradeAction : Type :=
  | SendNewOrder (params : OrderParams)
  | SendCancelOrder (id : Z)
  | SendCancelAll (instrument : string).

(** What the strategy reads from the host: [portfolio().position] and
    the working orders of [orders()], per instrument.  An entry of the
    working-order sequence is a pointer and may be null. *)
Record Host : Type := {
  position : string -> Z;
  working_orders : string -> list (option Order)
}.

Definition num_working_orders (host : Host) (instrument : Instrument) : Z :=
  Z.of_nat (List.length (working_orders host (symbol instrument))).

(** [VWAPStrategy::SendOrder] *)
Definition SendOrder (instrument : Instrument) (trade_size : Z)
    : list TradeAction :=
  if negb (ask_side_IsValid (top_quote instrument))
     || negb (bid_side_IsValid (top_quote instrument))
  then []
  else
    let price :=
      if 0 <? trade_size then ask (top_quote instrument)
      else bid (top_quote instrument) in
    let params :=
      {| params_instrument := symbol instrument;
         params_quantity := Int32.abs trade_size;
         params_price := price;
         params_market_center :=
           match type instrument with
           | INSTRUMENT_TYPE_EQUITY => MARKET_CENTER_ID_NASDAQ
           | _ => MARKET_CENTER_ID_CME_GLOBEX
           end;
         params_side :=
           if 0 <? trade_size then ORDER_SIDE_BUY else ORDER_SIDE_SELL;
         params_tif := ORDER_TIF_DAY;
         params_type := ORDER_TYPE_MARKET |} in
    [SendNewOrder params].

(** [VWAPStrategy::AdjustPortfolio] *)
Definition AdjustPortfolio (host : Host) (instrument : Instrument)
    (desired : Z) : list TradeAction :=
  let current_position := position host (symbol instrument) in
  let trade_size := Int32.sub desired current_position in
  if negb (trade_size =? 0) then
    if num_working_orders host instrument =? 0 then
      SendOrder instrument trade_size
    else
      match working_orders host (symbol instrument) with
      | Some order :: _ =>
          if (IsBuySide (order_side order) && (trade_size <? 0))
             || (IsSellSide (order_side order) && (0 <? trade_size))
          then [SendCancelOrder (order_id order)]
          else []
      | _ => []
      end
  else
    if 0 <? num_working_orders host instrument then
      [SendCancelAll (symbol instrument)]
    else [].

(** ** The trade callback *)

(** What [OnTrade] reads of a [TradeDataEventMsg]. *)
Record TradeDataEventMsg : Type := {
  trade_price : D;
  trade_size : Z;
  event_time : TimeType;
  instrument : Instrument
}.

(** [VWAPStrategy::OnTrade].  The result is the strategy after the
    callback and the order actions it issued; [None] when the callback
    runs into the undefined behaviour of [IsVWAPReady]. *)
Definition OnTrade (host : Host) (msg : TradeDataEventMsg)
    (s : VWAPStrategy) : option (VWAPStrategy * list TradeAction) :=
  let s := AddTradeToWindow (trade_price msg) (trade_size msg)
             (event_time msg) s in
  let window_duration := seconds (vwap_window_seconds_ s) in
  let cutoff_time := event_time msg - window_duration in
  let s := PruneOldTrades cutoff_time s in
  match IsVWAPReady s with
  | None => None
  | Some false => Some (s, [])
  | Some true =>
      let vwap := GetVWAP s in
      let instr := instrument msg in
      if negb (IsValid (top_quote instr)) then Some (s, [])
      else
        let mid_price := CalculateMidPrice instr in
        let deviation_bps := CalculateDeviation mid_price vwap in
        let current_position := position host (symbol instr) in
        Some (s, AdjustPortfolio host instr
                   (desired_position s current_position deviation_bps))
  end.

(** A sequence of trade events against a host whose answers do not
    change in between; the actions of all callbacks, in order. *)
Fixpoint OnTrades (host : Host) (msgs : list TradeDataEventMsg)
    (s : VWAPStrategy) : option (VWAPStrategy * list TradeAction) :=
  match msgs with
  | [] => Some (s, [])
  | msg :: rest =>
      match OnTrade host msg s with
      | None => None
      | Some (s1, actions1) =>
          match OnTrades host rest s1 with
          | None => None
          | Some (s2, actions2) => Some (s2, actions1 ++ actions2)
          end
      end
  end.

(** ** Parameter store *)

Inductive ParamValue : Type :=
  | VALUE_TYPE_INT (i : Z)
  | VALUE_TYPE_DOUBLE (d : D)
  | VALUE_TYPE_BOOL (b : bool).

Record StrategyParam : Type := {
  param_name : string;
  param_value : ParamValue
}.

(** [StrategyParam::Get] of the host library is not part of the
    sources.  It is taken as given, one reading per target type, and
    nothing is assumed of it: called on a parameter with a pointer to a
    field that holds [target], it answers with the [bool] it returns
    and with the value it leaves in the field (which a call is free to
    write whether it succeeds or not). *)
Variable Get_int : StrategyParam -> Z -> bool * Z.
Variable Get_double : StrategyParam -> D -> bool * D.
Variable Get_bool : StrategyParam -> bool -> bool * bool.

(** How a callback ends. *)
Inductive Outcome : Type :=
  | Returned
  | Thrown (what : string).   (* StrategyStudioException *)

Definition set_vwap_window_seconds (v : Z) (s : VWAPStrategy) :=
  {| vwap_window_ := vwap_window_ s;
     cumulative_pv_ := cumulative_pv_ s;
     cumulative_volume_ := cumulative_volume_ s;
     vwap_window_seconds_ := v;
     entry_threshold_bps_ := entry_threshold_bps_ s;
     max_inventory_ := max_inventory_ s;
     position_size_ := position_size_ s;
     debug_ := debug_ s |}.

Definition set_entry_threshold_bps (v : D) (s : VWAPStrategy) :=
  {| vwap_window_ := vwap_window_ s;
     cumulative_pv_ := cumulative_pv_ s;
     cumulative_volume_ := cumulative_volume_ s;
     vwap_window_seconds_ := vwap_window_seconds_ s;
     entry_threshold_bps_ := v;
     max_inventory_ := max_inventory_ s;
     position_size_ := position_size_ s;
     debug_ := debug_ s |}.

Definition set_max_inventory (v : Z) (s : VWAPStrategy) :=
  {| vwap_window_ := vwap_window_ s;
     cumulative_pv_ := cumulative_pv_ s;
     cumulative_volume_ := cumulative_volume_ s;
     vwap_window_seconds_ := vwap_window_seconds_ s;
     entry_threshold_bps_ := entry_threshold_bps_ s;
     max_inventory_ := v;
     position_size_ := position_size_ s;
     debug_ := debug_ s |}.

Definition set_position_size (v : Z) (s : VWAPStrategy) :=
  {| vwap_window_ := vwap_window_ s;
     cumulative_pv_ := cumulative_pv_ s;
     cumulative_volume_ := cumulative_volume_ s;
     vwap_window_seconds_ := vwap_window_seconds_ s;
     entry_threshold_bps_ := entry_threshold_bps_ s;
     max_inventory_ := max_inventory_ s;
     position_size_ := v;
     debug_ := debug_ s |}.

Definition set_debug (v : bool) (s : VWAPStrategy) :=
  {| vwap_window_ := vwap_window_ s;
     cumulative_pv_ := cumulative_pv_ s;
     cumulative_volume_ := cumulative_volume_ s;
     vwap_window_seconds_ := vwap_window_seconds_ s;
     entry_threshold_bps_ := entry_threshold_bps_ s;
     max_inventory_ := max_inventory_ s;
     position_size_ := position_size_ s;
     debug_ := v |}.

(** [if (!param.Get(&field)) throw StrategyStudioException(what);]
    The field holds what [Get] left in it, whether the callback returns
    or throws: the source neither saves nor restores it. *)
Definition get_or_throw {A : Type} (got : bool * A)
    (set : A -> VWAPStrategy -> VWAPStrategy) (what : string)
    (s : VWAPStrategy) : VWAPStrategy * Outcome :=
  (set (snd got) s, if fst got then Returned else Thrown what).

(** [VWAPStrategy::OnParamChanged] *)
Definition OnParamChanged (param : StrategyParam)
    (s : VWAPStrategy) : VWAPStrategy * Outcome :=
  if String.eqb (param_name param) "vwap_window_seconds" then
    get_or_throw (Get_int param (vwap_window_seconds_ s))
      set_vwap_window_seconds "Could not get vwap_window_seconds" s
  else if String.eqb (param_name param) "entry_threshold_bps" then
    get_or_throw (Get_double param (entry_threshold_bps_ s))
      set_entry_threshold_bps "Could not get entry_threshold_bps" s
  else if String.eqb (param_name param) "max_inventory" then
    get_or_throw (Get_int param (max_inventory_ s))
      set_max_inventory "Could not get max_inventory" s
  else if String.eqb (param_name param) "position_size" then
    get_or_throw (Get_int param (position_size_ s))
      set_position_size "Could not get position_size" s
  else if String.eqb (param_name param) "debug" then
    get_or_throw (Get_bool param (debug_ s))
      set_debug "Could not get debug" s
  else (s, Returned).

End Strategy.

Arguments VWAPTradeRecord D : clear implicits.
Arguments VWAPStrategy D : clear implicits.
Arguments Quote D : clear implicits.
Arguments Instrument D : clear implicits.
Arguments OrderParams D : clear implicits.
Arguments TradeAction D : clear implicits.
Arguments TradeDataEventMsg D : clear implicits.
Arguments ParamValue D : clear implicits.
Arguments StrategyParam D : clear implicits.

(** ** Construction and the parameter table *)

(** The constructor [VWAPStrategy::VWAPStrategy]: empty window, and the
    defaults 300 s, 0.1 bps, 5, 1, true.  [0.1] is written [1 / 10]:
    the correctly rounded quotient is the literal's value. *)
Definition VWAPStrategy_new {D : Type} `{Double D} : VWAPStrategy D :=
  {| vwap_window_ := [];
     cumulative_pv_ := of_int 0;
     cumulative_volume_ := 0;
     vwap_window_seconds_ := 300;
     entry_threshold_bps_ := ddiv (of_int 1) (of_int 10);
     max_inventory_ := 5;
     position_size_ := 1;
     debug_ := true |}.

(** The five configuration fields that [DefineStrategyParams] declares
    and [OnParamChanged] writes. *)
Inductive ConfigField : Type :=
  | F_vwap_window_seconds
  | F_entry_threshold_bps
  | F_max_inventory
  | F_position_size
  | F_debug.

Definition field_name (f : ConfigField) : string :=
  match f with
  | F_vwap_window_seconds => "vwap_window_seconds"
  | F_entry_threshold_bps => "entry_threshold_bps"
  | F_max_inventory => "max_inventory"
  | F_position_size => "position_size"
  | F_debug => "debug"
  end.

(** The current value of a configuration field, tagged with the value
    type [DefineStrategyParams] registers it with. *)
Definition field_value {D : Type} (f : ConfigField) (s : VWAPStrategy D)
    : ParamValue D :=
  match f with
  | F_vwap_window_seconds => VALUE_TYPE_INT (vwap_window_seconds_ s)
  | F_entry_threshold_bps => VALUE_TYPE_DOUBLE (entry_threshold_bps_ s)
  | F_max_inventory => VALUE_TYPE_INT (max_inventory_ s)
  | F_position_size => VALUE_TYPE_INT (position_size_ s)
  | F_debug => VALUE_TYPE_BOOL (debug_ s)
  end.


(** Modelled from the spec: a [StrategyParam::Get] that coerces nothing,
    succeeding exactly when the value has the type of the target, and
    writing its target only then. *)
Definition Get_int_strict {D : Type} (param : StrategyParam D) (target : Z)
    : bool * Z :=
  match param_value param with
  | VALUE_TYPE_INT i => (true, i)
  | _ => (false, target)
  end.

Definition Get_double_strict {D : Type} (param : StrategyParam D) (target : D)
    : bool * D :=
  match param_value param with
  | VALUE_TYPE_DOUBLE d => (true, d)
  | _ => (false, target)
  end.

Definition Get_bool_strict {D : Type} (param : StrategyParam D) (target : bool)
    : bool * bool :=
  match param_value param with
  | VALUE_TYPE_BOOL b => (true, b)
  | _ => (false, target)
  end.


(** ** Orders, as the statements below name them *)

(** The order [SendOrder] builds. *)
Definition market_order {D : Type} (instrument : Instrument D) (quantity : Z)
    (side : OrderSide) (price : D) : TradeAction D :=
  SendNewOrder
    {| params_instrument := symbol instrument;
       params_quantity := quantity;
       params_price := price;
       params_market_center :=
         match type instrument with
         | INSTRUMENT_TYPE_EQUITY => MARKET_CENTER_ID_NASDAQ
         | INSTRUMENT_TYPE_FUTURE => MARKET_CENTER_ID_CME_GLOBEX
         end;
       params_side := side;
       params_tif := ORDER_TIF_DAY;
       params_type := ORDER_TYPE_MARKET |}.

Definition two_sided {D : Type} (instrument : Instrument D) : bool :=
  ask_side_IsValid (top_quote instrument)
  && bid_side_IsValid (top_quote instrument).

(** ** Sums over the window, and runs of the window operations *)

Definition sum_volume {D : Type} (w : list (VWAPTradeRecord D)) : Z :=
  fold_right (fun r acc => volume r + acc) 0 w.

Definition sum_pv {D : Type} `{Double D} (w : list (VWAPTradeRecord D)) : D :=
  fold_right (fun r acc => dadd (pv_of r) acc) (of_int 0) w.

Inductive WindowOp (D : Type) : Type :=
  | OpAdd (p : D) (v : Z) (t : TimeType)
  | OpPrune (cutoff_time : TimeType)
  | OpReset.

Arguments OpAdd {D} p v t.
Arguments OpPrune {D} cutoff_time.
Arguments OpReset {D}.

Definition window_step {D : Type} `{Double D}
    (s : VWAPStrategy D) (op : WindowOp D) : VWAPStrategy D :=
  match op with
  | OpAdd p v t => AddTradeToWindow p v t s
  | OpPrune cutoff_time => PruneOldTrades cutoff_time s
  | OpReset => OnResetStrategyState s
  end.

Definition window_run {D : Type} `{Double D}
    (ops : list (WindowOp D)) (s : VWAPStrategy D) : VWAPStrategy D :=
  fold_left window_step ops s.

(** The accumulator invariant as the data model words it. *)
Definition volume_matches {D : Type} (s : VWAPStrategy D) : Prop :=
  cumulative_volume_ s = sum_volume (vwap_window_ s).

Definition pv_matches {D : Type} `{Double D} (s : VWAPStrategy D) : Prop :=
  cumulative_pv_ s = sum_pv (vwap_window_ s).

(** ... and as 32-bit accumulation keeps it. *)
Definition volume_matches_int {D : Type} (s : VWAPStrategy D) : Prop :=
  cumulative_volume_ s = Int32.wrap (sum_volume (vwap_window_ s)).

(** ** Concrete inputs

    Binary64 inputs on which the statements below are evaluated. *)

(** boost's default clock counts microseconds. *)
Definition microsecond_clock : Z := 1000000.

Definition quote_of (b a : float) (bid_ok ask_ok : bool) : Quote float :=
  {| IsValid := true;
     bid := b;
     ask := a;
     bid_side_IsValid := bid_ok;
     ask_side_IsValid := ask_ok |}.

Definition SPY (q : Quote float) : Instrument float :=
  {| symbol := "SPY"; type := INSTRUMENT_TYPE_EQUITY; top_quote := q |}.

(** A host that reports position [pos] and the working orders [orders]
    for every instrument. *)
Definition host_with (pos : Z) (orders : list (option Order)) : Host :=
  {| position := fun _ => pos; working_orders := fun _ => orders |}.

Definition trade (p : float) (v : Z) (t : TimeType) (q : Quote float)
    : TradeDataEventMsg float :=
  {| trade_price := p; trade_size := v; event_time := t; instrument := SPY q |}.

(** Configuration of the worked examples of the decision rules:
    threshold 2.0 bps, at most 5 units, 1 unit per order. *)
Definition example_config : VWAPStrategy float :=
  set_entry_threshold_bps 2%float VWAPStrategy_new.

(** A strategy holding three trades at price 100 (VWAP = 100). *)
Definition three_trades_at_100 : VWAPStrategy float :=
  window_run [OpAdd 100%float 10 0; OpAdd 100%float 10 1000000;
              OpAdd 100%float 10 2000000] example_config.

(** [a; b] with [a] large enough to absorb [b] in binary64. *)
Definition absorbing_run : list (WindowOp float) :=
  [OpAdd 1e16%float 1 0; OpAdd 1%float 1 1; OpPrune 1].

Definition overflowing_run : list (WindowOp float) :=
  [OpAdd 1%float 2147483647 0; OpAdd 1%float 1 0].

(** A run in exact arithmetic: two trades, then the first is pruned. *)
Definition exact_run : list (WindowOp Qc) :=
  [OpAdd (Q2Qc 100.5) 100 0; OpAdd (Q2Qc 101) 200 1000000; OpPrune 1].

(** Two trades one second apart, under the default window of 300 s. *)
Definition two_trades_one_second_apart : VWAPStrategy float :=
  window_run [OpAdd 100%float 10 0; OpAdd 100.5%float 10 1000000]
    VWAPStrategy_new.



(** The documented scenario: trades 100.00 x 100, 100.10 x 100 and
    99.50 x 200 one second apart, mid-price 99.70, flat, threshold 2.0. *)
#[local] Set Warnings "-inexact-float".

Definition scenario_quote : Quote float := quote_of 99.69 99.71 true true.

Definition scenario_trades : list (TradeDataEventMsg float) :=
  [trade 100.00 100 0 scenario_quote;
   trade 100.10 100 1000000 scenario_quote;
   trade 99.50 200 2000000 scenario_quote].

#[local] Set Warnings "+inexact-float".

(** Two records out of time order, under a window length of 0 s. *)
Definition out_of_order_window : VWAPStrategy float :=
  set_vwap_window_seconds 0
    (window_run [OpAdd 100%float 10 1000000; OpAdd 100%float 10 500000]
       VWAPStrategy_new).

(** ** The rest of the strategy: tables, commands, creation *)

(** [VWAPStrategy::DefineStrategyParams]: each parameter is registered
    with its name, when it may change, and the current value of its
    field tagged with the registered value type. *)
Inductive StrategyParamType : Type :=
  | STRATEGY_PARAM_TYPE_STARTUP
  | STRATEGY_PARAM_TYPE_RUNTIME.

Record CreateStrategyParamArgs (D : Type) : Type := {
  args_name : string;
  args_param_type : StrategyParamType;
  args_default : ParamValue D
}.

Arguments args_name {D} _.
Arguments args_param_type {D} _.
Arguments args_default {D} _.

Definition DefineStrategyParams {D : Type} (s : VWAPStrategy D)
    : list (CreateStrategyParamArgs D) :=
  [ {| args_name := "vwap_window_seconds";
       args_param_type := STRATEGY_PARAM_TYPE_STARTUP;
       args_default := VALUE_TYPE_INT (vwap_window_seconds_ s) |};
    {| args_name := "entry_threshold_bps";
       args_param_type := STRATEGY_PARAM_TYPE_RUNTIME;
       args_default := VALUE_TYPE_DOUBLE (entry_threshold_bps_ s) |};
    {| args_name := "max_inventory";
       args_param_type := STRATEGY_PARAM_TYPE_RUNTIME;
       args_default := VALUE_TYPE_INT (max_inventory_ s) |};
    {| args_name := "position_size";
       args_param_type := STRATEGY_PARAM_TYPE_RUNTIME;
       args_default := VALUE_TYPE_INT (position_size_ s) |};
    {| args_name := "debug";
       args_param_type := STRATEGY_PARAM_TYPE_RUNTIME;
       args_default := VALUE_TYPE_BOOL (debug_ s) |} ].

(** The parameter a host sends to set a registered parameter to the
    value it was registered with. *)
Definition param_of_args {D : Type} (args : CreateStrategyParamArgs D)
    : StrategyParam D :=
  {| param_name := args_name args; param_value := args_default args |}.

(** [VWAPStrategy::DefineStrategyCommands] *)
Definition DefineStrategyCommands : list (Z * string) :=
  [(1, "Cancel All Orders"%string)].

(** [VWAPStrategy::OnStrategyCommand]: what it calls on
    [trade_actions()] ([SendCancelAll()] without an instrument cancels
    every order of the strategy). *)
Inductive CommandAction : Type := SendCancelAllOrders.

Definition OnStrategyCommand (command_id : Z) : list CommandAction :=
  if command_id =? 1 then [SendCancelAllOrders] else [].

(** [GetType] and [CreateStrategy] of VWAP.h: [strcmp(...) == 0] is
    equality of the two names; [None] is [nullptr]. *)
Definition GetType : string := "VWAPStrategy".

Definition CreateStrategy {D : Type} `{Double D} (strategyType : string)
    : option (VWAPStrategy D) :=
  if String.eqb strategyType GetType then Some VWAPStrategy_new else None.

(** ** Vocabulary of the further statements *)

(** The record [OnTrade] adds for a message, and the cutoff it prunes
    with. *)
Definition record_of {D : Type} (msg : TradeDataEventMsg D)
    : VWAPTradeRecord D :=
  {| timestamp := event_time msg;
     price := trade_price msg;
     volume := trade_size msg |}.

Definition cutoff_of {D : Type} (ticks_per_second : Z)
    (msg : TradeDataEventMsg D) (s : VWAPStrategy D) : TimeType :=
  event_time msg - seconds ticks_per_second (vwap_window_seconds_ s).

(** The strategy [OnTrade] leaves behind: the trade added, the old
    trades pruned. *)
Definition after_trade {D : Type} `{Double D} (ticks_per_second : Z)
    (msg : TradeDataEventMsg D) (s : VWAPStrategy D) : VWAPStrategy D :=
  PruneOldTrades (cutoff_of ticks_per_second msg s)
    (AddTradeToWindow (trade_price msg) (trade_size msg) (event_time msg) s).

(** A session: the host delivers trades one after another, each with
    the quote, position and working orders of its moment.  The result
    is the strategy at the end and every order action issued, in order;
    [None] when a callback runs into undefined behaviour. *)
Fixpoint trade_session {D : Type} `{Double D} (ticks_per_second : Z)
    (events : list (Host * TradeDataEventMsg D)) (s : VWAPStrategy D)
    : option (VWAPStrategy D * list (TradeAction D)) :=
  match events with
  | [] => Some (s, [])
  | (host, msg) :: rest =>
      match OnTrade ticks_per_second host msg s with
      | None => None
      | Some (s1, actions1) =>
          match trade_session ticks_per_second rest s1 with
          | None => None
          | Some (s2, actions2) => Some (s2, actions1 ++ actions2)
          end
      end
  end.

(** A record is recent when it is not older than the cutoff. *)
Definition recent {D : Type} (cutoff_time : TimeType)
    (r : VWAPTradeRecord D) : bool :=
  cutoff_time <=? timestamp r.

(** The window in time order: no record is older than one before it. *)
Definition not_after {D : Type} (a b : VWAPTradeRecord D) : Prop :=
  timestamp a <= timestamp b.

Definition time_ordered {D : Type} (w : list (VWAPTradeRecord D)) : Prop :=
  StronglySorted not_after w.

(** The rule on the other side of the market. *)
Definition mirror (g : Signal) : Signal :=
  match g with
  | EXIT_LONG => EXIT_SHORT
  | EXIT_SHORT => EXIT_LONG
  | ENTRY_BUY => ENTRY_SELL
  | ENTRY_SELL => ENTRY_BUY
  | NO_SIGNAL => NO_SIGNAL
  end.

(** The market order that brings a position back to zero: a sell of the
    whole long position at the bid, a buy of the whole short position
    at the ask. *)
Definition closing_order {D : Type} (instrument : Instrument D)
    (current_position : Z) : TradeAction D :=
  if 0 <? current_position
  then market_order instrument current_position ORDER_SIDE_SELL
         (bid (top_quote instrument))
  else market_order instrument (- current_position) ORDER_SIDE_BUY
         (ask (top_quote instrument)).

(** The five configuration fields agree. *)
Definition same_config {D : Type} (s s' : VWAPStrategy D) : Prop :=
  vwap_window_seconds_ s' = vwap_window_seconds_ s
  /\ entry_threshold_bps_ s' = entry_threshold_bps_ s
  /\ max_inventory_ s' = max_inventory_ s
  /\ position_size_ s' = position_size_ s
  /\ debug_ s' = debug_ s.

(** The window and its two accumulators agree. *)
Definition same_window {D : Type} (s s' : VWAPStrategy D) : Prop :=
  vwap_window_ s' = vwap_window_ s
  /\ cumulative_pv_ s' = cumulative_pv_ s
  /\ cumulative_volume_ s' = cumulative_volume_ s.

Definition is_new_order {D : Type} (a : TradeAction D) : bool :=
  match a with SendNewOrder _ => true | _ => false end.

(** The strategies a host can bring about: construction, then any
    number of callbacks.  A trade callback must run to its end; a
    parameter callback leaves its strategy behind whether it returns or
    throws. *)
Inductive reachable {D : Type} `{Double D} (ticks_per_second : Z)
    (Get_int : StrategyParam D -> Z -> bool * Z)
    (Get_double : StrategyParam D -> D -> bool * D)
    (Get_bool : StrategyParam D -> bool -> bool * bool)
    : VWAPStrategy D -> Prop :=
  | reachable_new :
      reachable ticks_per_second Get_int Get_double Get_bool VWAPStrategy_new
  | reachable_trade s host msg s' actions :
      reachable ticks_per_second Get_int Get_double Get_bool s ->
      OnTrade ticks_per_second host msg s = Some (s', actions) ->
      reachable ticks_per_second Get_int Get_double Get_bool s'
  | reachable_param s param :
      reachable ticks_per_second Get_int Get_double Get_bool s ->
      reachable ticks_per_second Get_int Get_double Get_bool
        (fst (OnParamChanged Get_int Get_double Get_bool param s))
  | reachable_reset s :
      reachable ticks_per_second Get_int Get_double Get_bool s ->
      reachable ticks_per_second Get_int Get_double Get_bool
        (OnResetStrategyState s).

(** Further concrete inputs. *)

Definition three_in_order : list (VWAPTradeRecord float) :=
  [{| timestamp := 0; price := 100%float; volume := 10 |};
   {| timestamp := 1000000; price := 100.5%float; volume := 20 |};
   {| timestamp := 2000000; price := 99.5%float; volume := 30 |}].

(** The window [three_in_order] with accumulators to match. *)
Definition holding_three : VWAPStrategy float :=
  window_run [OpAdd 100%float 10 0; OpAdd 100.5%float 20 1000000;
              OpAdd 99.5%float 30 2000000] VWAPStrategy_new.

Definition plain_quote : Quote float := quote_of 99.5 100.5 true true.

(** Two trades, the first at a price so high that its price x volume is
    infinite in binary64; then the first is pruned. *)
Definition overflowing_price_run : list (WindowOp float) :=
  [OpAdd 0x1p+1023%float 10 0; OpAdd 100%float 10 1000000; OpPrune 1000000].

(** A first trade. *)
Definition first_trade : TradeDataEventMsg float := trade 100 10 0 plain_quote.

(** A fourth trade for [holding_three], two and a half seconds in. *)
Definition fourth_trade : TradeDataEventMsg float :=
  trade 100 40 2500000 plain_quote.

(** The strategy [holding_three] with a window length of 2 s. *)
Definition holding_three_short : VWAPStrategy float :=
  set_vwap_window_seconds 2 holding_three.

(** The documented scenario as a session: flat and idle at the first two
    trades, one buy order working at the third. *)
Definition scenario_session : list (Host * TradeDataEventMsg float) :=
  combine
    [host_with 0 []; host_with 0 [];
     host_with 0 [Some {| order_id := 1; order_side := ORDER_SIDE_BUY |}]]
    scenario_trades.

(** * Properties *)

(** ** 32-bit arithmetic *)

Lemma wrap_in_range (z : Z) : Int32.in_range z -> Int32.wrap z = z.
Proof.
  unfold Int32.in_range, Int32.min_int, Int32.max_int, Int32.wrap.
  intros Hz. rewrite Z.mod_small; lia.
Qed.

Lemma wrap_add_l (a b : Z) : Int32.wrap (Int32.wrap a + b) = Int32.wrap (a + b).
Proof.
  unfold Int32.wrap.
  replace ((a + 2 ^ 31) mod 2 ^ 32 - 2 ^ 31 + b + 2 ^ 31)
    with ((a + 2 ^ 31) mod 2 ^ 32 + b) by ring.
  rewrite Zplus_mod_idemp_l.
  replace (a + 2 ^ 31 + b) with (a + b + 2 ^ 31) by ring.
  reflexivity.
Qed.

Lemma wrap_sub_l (a b : Z) : Int32.wrap (Int32.wrap a - b) = Int32.wrap (a - b).
Proof.
  replace (Int32.wrap a - b) with (Int32.wrap a + - b) by ring.
  rewrite wrap_add_l. reflexivity.
Qed.

(** ** The rolling window *)

(** Name the result of the pruning loop that the goal mentions. *)
Ltac name_pruned w pv vol :=
  match goal with
  | |- context [prune_loop ?c ?w0 ?pv0 ?vol0] =>
      destruct (prune_loop c w0 pv0 vol0) as [[w pv] vol]
  end.

Section Window.

Context {D : Type} `{Double D}.

Implicit Types (s : VWAPStrategy D) (w : list (VWAPTradeRecord D)).

Lemma sum_volume_app w1 w2 :
  sum_volume (w1 ++ w2) = sum_volume w1 + sum_volume w2.
Proof.
  induction w1 as [|r w1 IH]; [reflexivity|].
  change (volume r + sum_volume (w1 ++ w2)
          = volume r + sum_volume w1 + sum_volume w2).
  rewrite IH. ring.
Qed.

(** The loop of [PruneOldTrades] removes a prefix of the window. *)
Lemma prune_loop_suffix cutoff w pv vol :
  exists removed,
    w = removed ++ fst (fst (prune_loop cutoff w pv vol)).
Proof.
  revert pv vol. induction w as [|r w IH]; intros pv vol; simpl.
  - exists []. reflexivity.
  - destruct (timestamp r <? cutoff).
    + destruct (IH (dsub pv (dmul (price r) (of_int (volume r))))
                   (Int32.sub vol (volume r))) as [removed Hrem].
      exists (r :: removed). simpl. f_equal. exact Hrem.
    + exists []. reflexivity.
Qed.

(** What is left has a front that is not older than the cutoff. *)
Lemma prune_loop_front cutoff w pv vol r :
  front (fst (fst (prune_loop cutoff w pv vol))) = Some r ->
  cutoff <= timestamp r.
Proof.
  revert pv vol. induction w as [|r0 w IH]; intros pv vol; simpl.
  - discriminate.
  - destruct (timestamp r0 <? cutoff) eqn:Hlt.
    + apply IH.
    + simpl. intros [= <-]. apply Z.ltb_ge. exact Hlt.
Qed.

(** On such a window the loop does not run at all. *)
Lemma prune_loop_stops cutoff w pv vol :
  (forall r, front w = Some r -> cutoff <= timestamp r) ->
  prune_loop cutoff w pv vol = (w, pv, vol).
Proof.
  destruct w as [|r w]; simpl; intros Hfront; [reflexivity|].
  assert (Hr : cutoff <= timestamp r) by (apply Hfront; reflexivity).
  apply Z.ltb_ge in Hr. rewrite Hr. reflexivity.
Qed.

Lemma prune_loop_volume cutoff w pv vol :
  vol = Int32.wrap (sum_volume w) ->
  snd (prune_loop cutoff w pv vol)
  = Int32.wrap (sum_volume (fst (fst (prune_loop cutoff w pv vol)))).
Proof.
  revert pv vol. induction w as [|r w IH]; intros pv vol Hvol; simpl.
  - exact Hvol.
  - destruct (timestamp r <? cutoff).
    + apply IH. subst vol. unfold Int32.sub.
      change (sum_volume (r :: w)) with (volume r + sum_volume w).
      rewrite wrap_sub_l. f_equal. ring.
    + exact Hvol.
Qed.

Lemma prune_loop_pv `{!ExactSums D} cutoff w pv vol :
  pv = sum_pv w ->
  snd (fst (prune_loop cutoff w pv vol))
  = sum_pv (fst (fst (prune_loop cutoff w pv vol))).
Proof.
  revert pv vol. induction w as [|r w IH]; intros pv vol Hpv; simpl.
  - exact Hpv.
  - destruct (timestamp r <? cutoff).
    + apply IH. subst pv.
      change (sum_pv (r :: w)) with (dadd (pv_of r) (sum_pv w)).
      apply dsub_add_cancel.
    + exact Hpv.
Qed.

Lemma sum_pv_snoc `{!ExactSums D} w r :
  sum_pv (w ++ [r]) = dadd (sum_pv w) (pv_of r).
Proof.
  induction w as [|r0 w IH].
  - change (dadd (pv_of r) (of_int 0) = dadd (of_int 0) (pv_of r)).
    apply dadd_comm.
  - change (dadd (pv_of r0) (sum_pv (w ++ [r]))
            = dadd (dadd (pv_of r0) (sum_pv w)) (pv_of r)).
    rewrite IH. apply dadd_assoc.
Qed.

(** Each operation keeps the volume accumulator in step with the window. *)
Lemma window_step_volume s op :
  volume_matches_int s -> volume_matches_int (window_step s op).
Proof.
  unfold volume_matches_int. intros Hs.
  destruct op as [p v t|cutoff|]; simpl.
  - rewrite sum_volume_app. simpl. unfold Int32.add.
    rewrite Hs, wrap_add_l. f_equal. ring.
  - unfold PruneOldTrades.
    pose proof (prune_loop_volume cutoff (vwap_window_ s)
                  (cumulative_pv_ s) (cumulative_volume_ s) Hs) as Hp.
    name_pruned w pv vol. exact Hp.
  - reflexivity.
Qed.

Lemma window_step_pv `{!ExactSums D} s op :
  pv_matches s -> pv_matches (window_step s op).
Proof.
  unfold pv_matches. intros Hs.
  destruct op as [p v t|cutoff|]; simpl.
  - rewrite sum_pv_snoc, Hs. reflexivity.
  - unfold PruneOldTrades.
    pose proof (prune_loop_pv cutoff (vwap_window_ s)
                  (cumulative_pv_ s) (cumulative_volume_ s) Hs) as Hp.
    name_pruned w pv vol. exact Hp.
  - reflexivity.
Qed.

Lemma window_run_volume ops s :
  volume_matches_int s -> volume_matches_int (window_run ops s).
Proof.
  revert s. induction ops as [|op ops IH]; intros s Hs; simpl.
  - exact Hs.
  - apply IH, window_step_volume, Hs.
Qed.

Lemma window_run_pv `{!ExactSums D} ops s :
  pv_matches s -> pv_matches (window_run ops s).
Proof.
  revert s. induction ops as [|op ops IH]; intros s Hs; simpl.
  - exact Hs.
  - apply IH, window_step_pv, Hs.
Qed.

End Window.

#[export] Instance exact_sums : ExactSums Qc.
Proof.
  split; simpl; intros.
  - apply Qcplus_comm.
  - apply Qcplus_assoc.
  - ring.
Qed.

Section WindowInvariant.

Context {D : Type} `{Double D}.

(** C3 (as amended).  After any run of AddTradeToWindow, PruneOldTrades
    and OnResetStrategyState on a newly constructed strategy,
    cumulative_volume_ is the sum of the volumes in the window reduced
    to the range of a 32-bit int, hence the sum itself whenever that
    fits in an int; and in exact arithmetic cumulative_pv_ is the sum of
    price * volume over the records in the window. *)
Theorem accumulators_track_window (ops : list (WindowOp D)) :
  let s := window_run ops VWAPStrategy_new in
  cumulative_volume_ s = Int32.wrap (sum_volume (vwap_window_ s)) /\
  (Int32.in_range (sum_volume (vwap_window_ s)) ->
   cumulative_volume_ s = sum_volume (vwap_window_ s)) /\
  (ExactSums D -> cumulative_pv_ s = sum_pv (vwap_window_ s)).
Proof.
  intros s.
  assert (Hvol : volume_matches_int s)
    by (apply window_run_volume; reflexivity).
  split; [exact Hvol|]. split.
  - intros Hrange. rewrite Hvol. apply wrap_in_range, Hrange.
  - intros Hexact. apply (window_run_pv ops). reflexivity.
Qed.

(** C8.  Pruning twice with the same cutoff: the second call leaves the
    window and both accumulators as the first call left them. *)
Theorem PruneOldTrades_idempotent (cutoff_time : TimeType) (s : VWAPStrategy D) :
  PruneOldTrades cutoff_time (PruneOldTrades cutoff_time s)
  = PruneOldTrades cutoff_time s.
Proof.
  unfold PruneOldTrades.
  pose proof (prune_loop_front cutoff_time (vwap_window_ s)
                (cumulative_pv_ s) (cumulative_volume_ s)) as Hfront.
  destruct (prune_loop cutoff_time (vwap_window_ s) (cumulative_pv_ s)
              (cumulative_volume_ s)) as [[w pv] vol].
  simpl in *. rewrite (prune_loop_stops cutoff_time w pv vol Hfront).
  reflexivity.
Qed.

(** A record at the back that is not older than the cutoff survives the
    loop of [PruneOldTrades], whatever precedes it. *)
Lemma prune_loop_keeps_back cutoff (w : list (VWAPTradeRecord D)) r pv vol :
  cutoff <= timestamp r ->
  exists kept, fst (fst (prune_loop cutoff (w ++ [r]) pv vol)) = kept ++ [r].
Proof.
  intros Hr. revert pv vol.
  induction w as [|r0 w IH]; intros pv vol; simpl.
  - apply Z.ltb_ge in Hr. rewrite Hr. exists []. reflexivity.
  - destruct (timestamp r0 <? cutoff).
    + apply IH.
    + exists (r0 :: w). reflexivity.
Qed.

Lemma back_snoc (w : list (VWAPTradeRecord D)) r : back (w ++ [r]) = Some r.
Proof.
  destruct w as [|r0 w]; simpl; [reflexivity|].
  f_equal. apply last_last.
Qed.

End WindowInvariant.

(** ** Readiness *)

Section Readiness.

Context {D : Type} `{Double D}.

Variable ticks_per_second : Z.

(** [total_seconds] truncates towards zero: it is never positive on a
    negative span. *)
Lemma total_seconds_negative (span : Z) :
  0 < ticks_per_second -> span < 0 -> total_seconds ticks_per_second span <= 0.
Proof.
  intros Htps Hspan. unfold total_seconds.
  replace span with (- - span) by ring.
  rewrite Z.quot_opp_l by lia.
  pose proof (Z.quot_pos (- span) ticks_per_second). lia.
Qed.

(** For a span that is not negative, or a positive number of seconds,
    [total_seconds] reaches [n] exactly when the span is at least [n]
    seconds long. *)
Lemma total_seconds_ge (span n : Z) :
  0 < ticks_per_second -> 0 <= span \/ 0 < n ->
  (n <=? total_seconds ticks_per_second span) = true
  <-> seconds ticks_per_second n <= span.
Proof.
  intros Htps Hcase. rewrite Z.leb_le.
  destruct (Z.le_gt_cases 0 span) as [Hspan|Hspan].
  - unfold total_seconds, seconds.
    rewrite Z.quot_div_nonneg by lia.
    split; intros Hle.
    + pose proof (Z.mul_div_le span ticks_per_second Htps). nia.
    + apply Z.div_le_lower_bound; lia.
  - destruct Hcase as [Hnonneg|Hn]; [lia|].
    pose proof (total_seconds_negative span Htps Hspan).
    unfold seconds. split; intros Hle; [lia|nia].
Qed.

(** C4, as amended.  On a window that is not empty, whose newest record
    is not older than its oldest (or under a positive window length),
    IsVWAPReady returns true exactly when the window holds at least 3
    records or the time from the oldest to the newest record is at
    least vwap_window_seconds_ seconds; so three records are ready
    whatever their spread, and two records spanning less than the
    window are not. *)
Theorem IsVWAPReady_rule (s : VWAPStrategy D) (oldest newest : VWAPTradeRecord D) :
  0 < ticks_per_second ->
  front (vwap_window_ s) = Some oldest ->
  back (vwap_window_ s) = Some newest ->
  timestamp oldest <= timestamp newest \/ 0 < vwap_window_seconds_ s ->
  let span := timestamp newest - timestamp oldest in
  let size := Z.of_nat (List.length (vwap_window_ s)) in
  (IsVWAPReady ticks_per_second s = Some true
   <-> 3 <= size \/ seconds ticks_per_second (vwap_window_seconds_ s) <= span)
  /\ (IsVWAPReady ticks_per_second s = Some false
      <-> ~ (3 <= size \/ seconds ticks_per_second (vwap_window_seconds_ s) <= span))
  /\ (size = 3 -> IsVWAPReady ticks_per_second s = Some true)
  /\ (size = 2 -> span < seconds ticks_per_second (vwap_window_seconds_ s) ->
      IsVWAPReady ticks_per_second s = Some false).
Proof.
  intros Htps Hfront Hback Hord span size.
  assert (Hcase : 0 <= span \/ 0 < vwap_window_seconds_ s)
    by (unfold span; lia).
  pose proof (total_seconds_ge span (vwap_window_seconds_ s) Htps Hcase) as Hsec.
  unfold IsVWAPReady, MIN_TRADE_REQUIRED. rewrite Hfront, Hback.
  fold span. fold size.
  destruct (3 <=? size) eqn:Hsize.
  - apply Z.leb_le in Hsize.
    repeat split; intros; try reflexivity; try discriminate; try lia;
      try tauto.
  - apply Z.leb_gt in Hsize.
    destruct (vwap_window_seconds_ s <=? total_seconds ticks_per_second span)
      eqn:Hready.
    + assert (seconds ticks_per_second (vwap_window_seconds_ s) <= span)
        by (apply Hsec; reflexivity).
      repeat split; intros; try reflexivity; try discriminate; try lia;
        try tauto.
    + assert (~ seconds ticks_per_second (vwap_window_seconds_ s) <= span)
        by (intros Hle; apply Hsec in Hle; congruence).
      repeat split; intros; try reflexivity; try discriminate; try lia;
        try tauto.
Qed.

(** Three records are ready without any assumption on their times. *)
Lemma IsVWAPReady_three (s : VWAPStrategy D) :
  List.length (vwap_window_ s) = 3%nat ->
  IsVWAPReady ticks_per_second s = Some true.
Proof.
  intros Hlen. unfold IsVWAPReady. rewrite Hlen. reflexivity.
Qed.

(** The front()/back() reads are defined exactly on a window that is
    not empty. *)
Lemma IsVWAPReady_defined (s : VWAPStrategy D) :
  vwap_window_ s <> [] -> IsVWAPReady ticks_per_second s <> None.
Proof.
  unfold IsVWAPReady. destruct (vwap_window_ s) as [|r w]; [congruence|].
  intros _. destruct (_ <=? _); simpl; discriminate.
Qed.

Lemma IsVWAPReady_empty (s : VWAPStrategy D) :
  vwap_window_ s = [] -> IsVWAPReady ticks_per_second s = None.
Proof.
  unfold IsVWAPReady. intros ->. reflexivity.
Qed.

(** C10.  With a window length that is not negative, the record OnTrade
    has just added survives the pruning that follows, so IsVWAPReady is
    reached with a window that is not empty: its front()/back() reads are
    defined, and OnTrade runs to its end. *)
Theorem OnTrade_window_nonempty (host : Host) (msg : TradeDataEventMsg D)
    (s : VWAPStrategy D) :
  0 <= ticks_per_second ->
  0 <= vwap_window_seconds_ s ->
  let added := AddTradeToWindow (trade_price msg) (trade_size msg)
                 (event_time msg) s in
  let pruned := PruneOldTrades
                  (event_time msg
                   - seconds ticks_per_second (vwap_window_seconds_ added))
                  added in
  back (vwap_window_ pruned)
  = Some {| timestamp := event_time msg;
            price := trade_price msg;
            volume := trade_size msg |}
  /\ vwap_window_ pruned <> []
  /\ IsVWAPReady ticks_per_second pruned <> None
  /\ OnTrade ticks_per_second host msg s <> None.
Proof.
  intros Htps Hwin added pruned.
  set (r := {| timestamp := event_time msg; price := trade_price msg;
               volume := trade_size msg |}).
  set (cutoff := event_time msg
                 - seconds ticks_per_second (vwap_window_seconds_ added)).
  assert (Hcut : cutoff <= timestamp r).
  { unfold cutoff, seconds. simpl. nia. }
  destruct (prune_loop_keeps_back cutoff (vwap_window_ s) r
              (cumulative_pv_ added) (cumulative_volume_ added) Hcut)
    as [kept Hkept].
  assert (Hw : vwap_window_ pruned = kept ++ [r]).
  { unfold pruned, PruneOldTrades. fold cutoff.
    change (vwap_window_ added) with (vwap_window_ s ++ [r]).
    name_pruned w pv vol. exact Hkept. }
  assert (Hne : vwap_window_ pruned <> []).
  { rewrite Hw. destruct kept; discriminate. }
  assert (Hready : IsVWAPReady ticks_per_second pruned <> None)
    by (apply IsVWAPReady_defined, Hne).
  repeat split; try assumption.
  - rewrite Hw. apply back_snoc.
  - unfold OnTrade. fold added. fold cutoff in pruned |- *. fold pruned.
    destruct (IsVWAPReady ticks_per_second pruned) as [[|]|];
      [|discriminate|congruence].
    destruct (negb _); discriminate.
Qed.

End Readiness.

(** ** Neutral values, position decision, order adjustment *)

Section Decision.

Context {D : Type} `{Double D}.

(** C7.  GetVWAP returns 0.0 when cumulative_volume_ is 0 and the
    quotient cumulative_pv_ / cumulative_volume_ otherwise;
    CalculateDeviation returns 0.0 when vwap == 0.0 and
    ((mid_price - vwap) / vwap) * 10000.0 otherwise.  Both are total:
    every input has a result, none raises an error. *)
Theorem neutral_values (s : VWAPStrategy D) (mid_price vwap : D) :
  (cumulative_volume_ s = 0 -> GetVWAP s = of_int 0)
  /\ (cumulative_volume_ s <> 0 ->
      GetVWAP s = ddiv (cumulative_pv_ s) (of_int (cumulative_volume_ s)))
  /\ (deqb vwap (of_int 0) = true -> CalculateDeviation mid_price vwap = of_int 0)
  /\ (deqb vwap (of_int 0) = false ->
      CalculateDeviation mid_price vwap
      = dmul (ddiv (dsub mid_price vwap) vwap) (of_int 10000)).
Proof.
  unfold GetVWAP, CalculateDeviation. repeat split.
  - intros ->. reflexivity.
  - intros Hvol. apply Z.eqb_neq in Hvol. rewrite Hvol. reflexivity.
  - intros ->. reflexivity.
  - intros ->. reflexivity.
Qed.

(** When no exit rule fires and no entry rule fires, no branch assigns
    the local [desired_position]: it keeps its initial value [0]. *)
Lemma signal_none (s : VWAPStrategy D)
    (current_position : Z) (deviation_bps : D) :
  (0 <? current_position) && dleb (of_int 0) deviation_bps = false ->
  (current_position <? 0) && dleb deviation_bps (of_int 0) = false ->
  (Int32.abs current_position <? max_inventory_ s) = false
  \/ (dltb deviation_bps (dneg (entry_threshold_bps_ s)) = false
      /\ dltb (entry_threshold_bps_ s) deviation_bps = false) ->
  signal s current_position deviation_bps = NO_SIGNAL.
Proof.
  intros Hlong Hshort Hentry. unfold signal.
  rewrite Hlong, Hshort.
  destruct Hentry as [-> | [-> ->]]; [reflexivity|].
  destruct (Int32.abs current_position <? max_inventory_ s); reflexivity.
Qed.

Lemma desired_position_no_signal (s : VWAPStrategy D)
    (current_position : Z) (deviation_bps : D) :
  signal s current_position deviation_bps = NO_SIGNAL ->
  desired_position s current_position deviation_bps = 0.
Proof.
  unfold desired_position. intros ->. reflexivity.
Qed.

(** Then the trade size handed to the order logic is minus the whole
    position: whatever is held is sold (or bought back). *)
Lemma no_signal_trade_size (s : VWAPStrategy D)
    (current_position : Z) (deviation_bps : D) :
  signal s current_position deviation_bps = NO_SIGNAL ->
  Int32.sub (desired_position s current_position deviation_bps)
    current_position
  = Int32.wrap (- current_position).
Proof.
  intros Hsig. rewrite (desired_position_no_signal _ _ _ Hsig).
  reflexivity.
Qed.

Lemma SendOrder_two_sided (instrument : Instrument D) (trade_size : Z) :
  two_sided instrument = true ->
  SendOrder instrument trade_size
  = [market_order instrument (Int32.abs trade_size)
       (if 0 <? trade_size then ORDER_SIDE_BUY else ORDER_SIDE_SELL)
       (if 0 <? trade_size then ask (top_quote instrument)
        else bid (top_quote instrument))].
Proof.
  unfold two_sided, SendOrder, market_order. intros Hq.
  apply andb_true_iff in Hq. destruct Hq as [-> ->]. simpl.
  destruct (type instrument); reflexivity.
Qed.

Lemma SendOrder_one_sided (instrument : Instrument D) (trade_size : Z) :
  two_sided instrument = false -> SendOrder instrument trade_size = [].
Proof.
  unfold two_sided, SendOrder. intros Hq.
  apply andb_false_iff in Hq. destruct Hq as [-> | ->]; simpl.
  - reflexivity.
  - rewrite orb_true_r. reflexivity.
Qed.

(** [AdjustPortfolio] once the sign of [trade_size] is known. *)
Lemma AdjustPortfolio_zero (host : Host) (instrument : Instrument D)
    (desired : Z) :
  Int32.sub desired (position host (symbol instrument)) = 0 ->
  AdjustPortfolio host instrument desired
  = match working_orders host (symbol instrument) with
    | [] => []
    | _ :: _ => [SendCancelAll (symbol instrument)]
    end.
Proof.
  intros Hzero. unfold AdjustPortfolio, num_working_orders. rewrite Hzero.
  destruct (working_orders host (symbol instrument)); reflexivity.
Qed.

Lemma AdjustPortfolio_nonzero (host : Host) (instrument : Instrument D)
    (desired : Z) :
  let trade_size := Int32.sub desired (position host (symbol instrument)) in
  trade_size <> 0 ->
  AdjustPortfolio host instrument desired
  = match working_orders host (symbol instrument) with
    | [] => SendOrder instrument trade_size
    | Some order :: _ =>
        if (IsBuySide (order_side order) && (trade_size <? 0))
           || (IsSellSide (order_side order) && (0 <? trade_size))
        then [SendCancelOrder (order_id order)]
        else []
    | None :: _ => []
    end.
Proof.
  intros trade_size Hsize. unfold AdjustPortfolio, num_working_orders.
  fold trade_size. apply Z.eqb_neq in Hsize. rewrite Hsize.
  destruct (working_orders host (symbol instrument)) as [|[order|] rest];
    reflexivity.
Qed.

(** C6 (as amended).  With trade_size = desired - current position:
    trade_size = 0 and a working order exists: cancel-all for the
    instrument; trade_size <> 0, no working order and both sides of the
    quote valid: exactly one market order of quantity abs(trade_size), a
    buy at the best ask when trade_size > 0 and a sell at the best bid when
    trade_size < 0; no working order and a side of the quote invalid: no
    action; trade_size <> 0 and the first working order is on the
    opposite side: that order is cancelled and no order is sent; the
    first working order on the required side: no action.  Never more
    than one action. *)
Theorem AdjustPortfolio_actions (host : Host) (instrument : Instrument D)
    (desired : Z) :
  let trade_size := Int32.sub desired (position host (symbol instrument)) in
  let orders := working_orders host (symbol instrument) in
  let actions := AdjustPortfolio host instrument desired in
  (trade_size = 0 -> orders <> [] ->
   actions = [SendCancelAll (symbol instrument)])
  /\ (trade_size = 0 -> orders = [] -> actions = [])
  /\ (0 < trade_size -> orders = [] -> two_sided instrument = true ->
      actions = [market_order instrument (Int32.abs trade_size)
                   ORDER_SIDE_BUY (ask (top_quote instrument))])
  /\ (trade_size < 0 -> orders = [] -> two_sided instrument = true ->
      actions = [market_order instrument (Int32.abs trade_size)
                   ORDER_SIDE_SELL (bid (top_quote instrument))])
  /\ (trade_size <> 0 -> orders = [] -> two_sided instrument = false ->
      actions = [])
  /\ (forall order rest, orders = Some order :: rest ->
      (order_side order = ORDER_SIDE_BUY /\ trade_size < 0)
      \/ (order_side order = ORDER_SIDE_SELL /\ 0 < trade_size) ->
      actions = [SendCancelOrder (order_id order)])
  /\ (forall order rest, orders = Some order :: rest ->
      (order_side order = ORDER_SIDE_BUY /\ 0 < trade_size)
      \/ (order_side order = ORDER_SIDE_SELL /\ trade_size < 0) ->
      actions = [])
  /\ (List.length actions <= 1)%nat.
Proof.
  intros trade_size orders actions.
  pose proof (AdjustPortfolio_zero host instrument desired) as Hzero.
  pose proof (AdjustPortfolio_nonzero host instrument desired) as Hnonzero.
  cbv zeta in Hnonzero.
  fold trade_size in Hzero, Hnonzero. fold orders in Hzero, Hnonzero.
  fold actions in Hzero, Hnonzero.
  repeat split.
  - intros Hsize Horders. rewrite (Hzero Hsize).
    destruct orders; [congruence|reflexivity].
  - intros Hsize Horders. rewrite (Hzero Hsize), Horders. reflexivity.
  - intros Hsize Horders Hquote.
    rewrite Hnonzero, Horders, (SendOrder_two_sided _ _ Hquote) by lia.
    apply Z.ltb_lt in Hsize. rewrite Hsize. reflexivity.
  - intros Hsize Horders Hquote.
    rewrite Hnonzero, Horders, (SendOrder_two_sided _ _ Hquote) by lia.
    assert (Hsign : (0 <? trade_size) = false) by (apply Z.ltb_ge; lia).
    rewrite Hsign. reflexivity.
  - intros Hsize Horders Hquote.
    rewrite (Hnonzero Hsize), Horders. apply SendOrder_one_sided, Hquote.
  - intros order rest Horders [[Hside Hsize]|[Hside Hsize]];
      rewrite Hnonzero, Horders, Hside by lia;
      apply Z.ltb_lt in Hsize; simpl; rewrite Hsize; reflexivity.
  - intros order rest Horders [[Hside Hsize]|[Hside Hsize]];
      rewrite Hnonzero, Horders, Hside by lia; simpl.
    + assert (Hsign : (trade_size <? 0) = false) by (apply Z.ltb_ge; lia).
      rewrite Hsign. reflexivity.
    + assert (Hsign : (0 <? trade_size) = false) by (apply Z.ltb_ge; lia).
      rewrite Hsign. reflexivity.
  - destruct (Z.eq_dec trade_size 0) as [Hsize|Hsize].
    + rewrite (Hzero Hsize). destruct orders; simpl; lia.
    + rewrite (Hnonzero Hsize).
      destruct orders as [|[order|] rest]; simpl; try lia.
      * unfold SendOrder. destruct (_ || _); simpl; lia.
      * destruct (_ || _); simpl; lia.
Qed.

End Decision.

(** ** Parameter updates *)

Section ParamStore.

Context {D : Type}.

Variable Get_int : StrategyParam D -> Z -> bool * Z.
Variable Get_double : StrategyParam D -> D -> bool * D.
Variable Get_bool : StrategyParam D -> bool -> bool * bool.



(** A name that is none of the five is ignored. *)
Lemma OnParamChanged_other_name (param : StrategyParam D) (s : VWAPStrategy D) :
  (forall f, param_name param <> field_name f) ->
  OnParamChanged Get_int Get_double Get_bool param s = (s, Returned).
Proof.
  intros Hother. unfold OnParamChanged.
  repeat match goal with
  | |- context [String.eqb (param_name param) ?n] =>
      destruct (String.eqb_spec (param_name param) n) as [Heq|_];
        [exfalso|]
  end.
  - exact (Hother F_vwap_window_seconds Heq).
  - exact (Hother F_entry_threshold_bps Heq).
  - exact (Hother F_max_inventory Heq).
  - exact (Hother F_position_size Heq).
  - exact (Hother F_debug Heq).
  - reflexivity.
Qed.

End ParamStore.

(** ** Binary64: comparisons at the boundary *)

Lemma ltb_irrefl (x : float) : PrimFloat.ltb x x = false.
Proof.
  rewrite FloatAxioms.ltb_spec. unfold SFltb, SFcompare.
  destruct (Prim2SF x) as [sg|sg| |sg m e]; try reflexivity.
  - destruct sg; reflexivity.
  - destruct sg; rewrite Z.compare_refl, Pos.compare_cont_refl; reflexivity.
Qed.

Lemma ltb_opp_nonneg (x : float) :
  PrimFloat.leb 0 x = true -> PrimFloat.ltb x (PrimFloat.opp x) = false.
Proof.
  rewrite FloatAxioms.leb_spec, FloatAxioms.ltb_spec, FloatAxioms.opp_spec.
  change (Prim2SF 0) with (S754_zero false).
  unfold SFleb, SFltb, SFcompare, SFopp.
  destruct (Prim2SF x) as [sg|sg| |sg m e]; try reflexivity; try discriminate.
  - destruct sg; simpl; [discriminate|reflexivity].
  - destruct sg; simpl; [discriminate|reflexivity].
Qed.

(** A deviation equal to the threshold, or to its negation, takes
    neither entry branch. *)
Lemma signal_at_threshold (s : VWAPStrategy float) (current_position : Z) :
  PrimFloat.leb 0 (entry_threshold_bps_ s) = true ->
  forall deviation_bps,
    deviation_bps = entry_threshold_bps_ s
    \/ deviation_bps = PrimFloat.opp (entry_threshold_bps_ s) ->
    signal s current_position deviation_bps <> ENTRY_BUY
    /\ signal s current_position deviation_bps <> ENTRY_SELL.
Proof.
  intros Hthr deviation_bps Hdev. unfold signal.
  assert (Hbuy : dltb deviation_bps (dneg (entry_threshold_bps_ s)) = false).
  { destruct Hdev as [-> | ->]; simpl.
    - apply ltb_opp_nonneg, Hthr.
    - apply ltb_irrefl. }
  assert (Hsell : dltb (entry_threshold_bps_ s) deviation_bps = false).
  { destruct Hdev as [-> | ->]; simpl.
    - apply ltb_irrefl.
    - apply ltb_opp_nonneg, Hthr. }
  rewrite Hbuy, Hsell.
  destruct ((0 <? current_position) && _); [split; discriminate|].
  destruct ((current_position <? 0) && _); [split; discriminate|].
  destruct (Int32.abs current_position <? max_inventory_ s);
    split; discriminate.
Qed.

(** ** Binary64: the decision rules on the documented examples *)

(** C5.  Exits compare with >= and <=, entries with < and >.  At
    deviation 0.0 a long position of 2 and a short position of -2 both
    exit to 0 (whatever the configuration).  From a flat position with
    max_inventory 5, order size 1 and threshold 2.0: deviation -3.0
    gives +1, +3.0 gives -1, 0.0 gives 0, and a deviation of exactly
    2.0 or -2.0 gives no entry; the same at the boundary of any
    threshold that is not negative. *)
Theorem decision_thresholds :
  (forall s : VWAPStrategy float,
      signal s 2 0%float = EXIT_LONG /\ desired_position s 2 0%float = 0
      /\ signal s (-2) 0%float = EXIT_SHORT /\ desired_position s (-2) 0%float = 0)
  /\ (forall s : VWAPStrategy float,
      entry_threshold_bps_ s = 2%float ->
      max_inventory_ s = 5 -> position_size_ s = 1 ->
      (signal s 0 (-3)%float = ENTRY_BUY /\ desired_position s 0 (-3)%float = 1)
      /\ (signal s 0 3%float = ENTRY_SELL /\ desired_position s 0 3%float = -1)
      /\ (signal s 0 0%float = NO_SIGNAL /\ desired_position s 0 0%float = 0)
      /\ (signal s 0 2%float = NO_SIGNAL /\ desired_position s 0 2%float = 0)
      /\ (signal s 0 (-2)%float = NO_SIGNAL /\ desired_position s 0 (-2)%float = 0))
  /\ (forall s : VWAPStrategy float,
      PrimFloat.leb 0 (entry_threshold_bps_ s) = true ->
      0 < max_inventory_ s ->
      signal s 0 (entry_threshold_bps_ s) = NO_SIGNAL
      /\ signal s 0 (PrimFloat.opp (entry_threshold_bps_ s)) = NO_SIGNAL).
Proof.
  split; [|split].
  - intros s. unfold desired_position, signal. simpl. repeat split.
  - intros s Hthr Hmax Hsize.
    unfold desired_position, signal. rewrite Hthr, Hmax, Hsize.
    repeat split.
  - intros s Hthr Hmax.
    assert (Hcap : (Int32.abs 0 <? max_inventory_ s) = true)
      by (apply Z.ltb_lt; exact Hmax).
    unfold signal. rewrite Hcap. simpl.
    rewrite (ltb_opp_nonneg _ Hthr), !ltb_irrefl. split; reflexivity.
Qed.

(** C1 (the code departs from it).  At the inventory cap, position
    5 = max_inventory_ with deviation -10.0, no rule fires and the local
    desired_position keeps its initial 0 rather than the position 5: the
    following AdjustPortfolio sells all 5 units at market, and so does a
    whole OnTrade on trades at 100 with the quote 99.75 / 100 (deviation
    -12.5 bps). *)
Theorem inventory_cap_goes_flat :
  signal example_config 5 (-10)%float = NO_SIGNAL
  /\ desired_position example_config 5 (-10)%float = 0
  /\ AdjustPortfolio (host_with 5 [])
       (SPY (quote_of 99.5 100.5 true true))
       (desired_position example_config 5 (-10)%float)
     = [market_order (SPY (quote_of 99.5 100.5 true true)) 5
          ORDER_SIDE_SELL 99.5%float]
  /\ option_map snd
       (OnTrade microsecond_clock (host_with 5 [])
          (trade 100 10 3000000 (quote_of 99.75 100 true true))
          three_trades_at_100)
     = Some [market_order (SPY (quote_of 99.75 100 true true)) 5
               ORDER_SIDE_SELL 99.75%float].
Proof.
  repeat split; vm_compute; reflexivity.
Qed.

(** C2 (the code departs from it).  On a newly constructed strategy
    GetVWAP returns 0.0, but IsVWAPReady reads back() and front() of the
    empty deque: its behaviour is undefined, not the answer false.  The
    state is reachable through the callbacks: once vwap_window_seconds is
    set to -1, OnTrade prunes the record it has just added and calls
    IsVWAPReady on the empty window. *)
Theorem IsVWAPReady_empty_window_undefined :
  GetVWAP (VWAPStrategy_new (D := float)) = 0%float
  /\ IsVWAPReady microsecond_clock (VWAPStrategy_new (D := float)) = None
  /\ IsVWAPReady microsecond_clock (VWAPStrategy_new (D := float))
     <> Some false
  /\ (let updated :=
        OnParamChanged Get_int_strict Get_double_strict Get_bool_strict
          {| param_name := "vwap_window_seconds";
             param_value := VALUE_TYPE_INT (-1) |}
          (VWAPStrategy_new (D := float)) in
      snd updated = Returned
      /\ OnTrade microsecond_clock (host_with 0 [])
           (trade 100 10 0 (quote_of 99.5 100.5 true true)) (fst updated)
         = None).
Proof.
  repeat split; try discriminate; vm_compute; reflexivity.
Qed.

(** ** Binary64: where the accumulators leave the sums *)

(** C3, counterexample.  Two trades of volume 2147483647 and 1: the sum
    of the volumes in the window is 2147483648, the 32-bit accumulator
    holds -2147483648. *)
Lemma volume_accumulator_wraps :
  sum_volume (vwap_window_ (window_run overflowing_run VWAPStrategy_new))
  = 2147483648
  /\ cumulative_volume_ (window_run overflowing_run VWAPStrategy_new)
     = -2147483648
  /\ ~ volume_matches (window_run overflowing_run VWAPStrategy_new).
Proof.
  repeat split; try (vm_compute; reflexivity).
  unfold volume_matches. vm_compute. discriminate.
Qed.

(** In binary64 the price-volume accumulator can lose a record that is
    still in the window: after adding 1e16 x 1 and 1.0 x 1 and pruning
    the first, the window holds the single record 1.0 x 1 while
    cumulative_pv_ is 0.0, and GetVWAP answers 0.0. *)
Lemma pv_accumulator_absorbs :
  let s := window_run absorbing_run VWAPStrategy_new in
  vwap_window_ s = [{| timestamp := 1; price := 1%float; volume := 1 |}]
  /\ sum_pv (vwap_window_ s) = 1%float
  /\ cumulative_pv_ s = 0%float
  /\ GetVWAP s = 0%float.
Proof.
  repeat split; vm_compute; reflexivity.
Qed.

(** C6, counterexample.  Flat, target 1, no working order, but the bid
    side of the quote is not valid: nothing is sent. *)
Lemma one_sided_quote_sends_nothing :
  Int32.sub 1 (position (host_with 0 []) "SPY") = 1
  /\ working_orders (host_with 0 []) "SPY" = []
  /\ AdjustPortfolio (host_with 0 [])
       (SPY (quote_of 99.5 100.5 false true)) 1 = []
  /\ ~ (exists params,
         AdjustPortfolio (host_with 0 [])
           (SPY (quote_of 99.5 100.5 false true)) 1
         = [SendNewOrder params]).
Proof.
  repeat split; try (vm_compute; reflexivity).
  intros [params Hsent]. vm_compute in Hsent. discriminate.
Qed.


(** With two working orders the code looks at the first one only. *)
Lemma second_working_order_not_considered :
  AdjustPortfolio
    (host_with 0 [Some {| order_id := 1; order_side := ORDER_SIDE_BUY |};
                  Some {| order_id := 2; order_side := ORDER_SIDE_SELL |}])
    (SPY (quote_of 99.5 100.5 true true)) 1
  = [].
Proof. reflexivity. Qed.

(** ** The statements at concrete inputs *)

Lemma accumulators_track_window_witness :
  Int32.in_range
    (sum_volume (vwap_window_ (window_run exact_run VWAPStrategy_new)))
  /\ ExactSums Qc
  /\ cumulative_volume_ (window_run exact_run VWAPStrategy_new) = 200
  /\ cumulative_pv_ (window_run exact_run VWAPStrategy_new)
     = sum_pv (vwap_window_ (window_run exact_run VWAPStrategy_new)).
Proof.
  assert (Hrange : Int32.in_range
            (sum_volume (vwap_window_ (window_run exact_run VWAPStrategy_new)))).
  { unfold Int32.in_range, Int32.min_int, Int32.max_int.
    change (sum_volume (vwap_window_ (window_run exact_run VWAPStrategy_new)))
      with 200.
    lia. }
  destruct (accumulators_track_window exact_run) as [_ [Hvol Hpv]].
  split; [exact Hrange|]. split; [exact exact_sums|]. split.
  - rewrite (Hvol Hrange). reflexivity.
  - exact (Hpv exact_sums).
Defined.

Lemma IsVWAPReady_rule_witness :
  0 < microsecond_clock
  /\ front (vwap_window_ two_trades_one_second_apart)
     = Some {| timestamp := 0; price := 100%float; volume := 10 |}
  /\ back (vwap_window_ two_trades_one_second_apart)
     = Some {| timestamp := 1000000; price := 100.5%float; volume := 10 |}
  /\ (0 <= 1000000 \/ 0 < vwap_window_seconds_ two_trades_one_second_apart)
  /\ IsVWAPReady microsecond_clock two_trades_one_second_apart = Some false.
Proof.
  assert (Hclock : 0 < microsecond_clock) by reflexivity.
  assert (Hfront : front (vwap_window_ two_trades_one_second_apart)
            = Some {| timestamp := 0; price := 100%float; volume := 10 |})
    by reflexivity.
  assert (Hback : back (vwap_window_ two_trades_one_second_apart)
            = Some {| timestamp := 1000000; price := 100.5%float;
                      volume := 10 |})
    by reflexivity.
  assert (Hord : 0 <= 1000000
                 \/ 0 < vwap_window_seconds_ two_trades_one_second_apart)
    by (left; lia).
  split; [exact Hclock|]. split; [exact Hfront|]. split; [exact Hback|].
  split; [exact Hord|].
  destruct (IsVWAPReady_rule microsecond_clock two_trades_one_second_apart
              _ _ Hclock Hfront Hback Hord) as (_ & _ & _ & Htwo).
  apply Htwo; [reflexivity|]. vm_compute. reflexivity.
Defined.

Lemma OnTrade_window_nonempty_witness :
  0 <= microsecond_clock
  /\ 0 <= vwap_window_seconds_ two_trades_one_second_apart
  /\ OnTrade microsecond_clock (host_with 0 [])
       (trade 100 10 400000000 (quote_of 99.5 100.5 true true))
       two_trades_one_second_apart
     <> None.
Proof.
  assert (Hclock : 0 <= microsecond_clock) by (unfold microsecond_clock; lia).
  assert (Hwin : 0 <= vwap_window_seconds_ two_trades_one_second_apart)
    by (simpl; lia).
  split; [exact Hclock|]. split; [exact Hwin|].
  exact (proj2 (proj2 (proj2
    (OnTrade_window_nonempty microsecond_clock (host_with 0 [])
       (trade 100 10 400000000 (quote_of 99.5 100.5 true true))
       two_trades_one_second_apart Hclock Hwin)))).
Defined.

Lemma neutral_values_witness :
  cumulative_volume_ (VWAPStrategy_new (D := float)) = 0
  /\ GetVWAP (VWAPStrategy_new (D := float)) = 0%float
  /\ cumulative_volume_ three_trades_at_100 <> 0
  /\ GetVWAP three_trades_at_100 = 100%float
  /\ CalculateDeviation 99.5%float (-0)%float = 0%float
  /\ CalculateDeviation 100.5%float 100%float = 50%float.
Proof.
  assert (Hzero : cumulative_volume_ (VWAPStrategy_new (D := float)) = 0)
    by reflexivity.
  assert (Hvol : cumulative_volume_ three_trades_at_100 <> 0)
    by (vm_compute; discriminate).
  split; [exact Hzero|].
  split; [exact (proj1 (neutral_values VWAPStrategy_new 0%float 0%float) Hzero)|].
  split; [exact Hvol|].
  split.
  - rewrite (proj1 (proj2 (neutral_values three_trades_at_100 0%float 0%float))
               Hvol).
    vm_compute. reflexivity.
  - split.
    + exact (proj1 (proj2 (proj2
        (neutral_values (VWAPStrategy_new (D := float))
           99.5%float (-0)%float))) eq_refl).
    + rewrite (proj2 (proj2 (proj2
        (neutral_values (VWAPStrategy_new (D := float)) 100.5%float 100%float))))
        by reflexivity.
      vm_compute. reflexivity.
Defined.

Lemma AdjustPortfolio_actions_witness :
  AdjustPortfolio (host_with 0 []) (SPY (quote_of 99.5 100.5 true true)) 3
  = [market_order (SPY (quote_of 99.5 100.5 true true)) 3
       ORDER_SIDE_BUY 100.5%float]
  /\ AdjustPortfolio
       (host_with 2 [Some {| order_id := 11; order_side := ORDER_SIDE_BUY |}])
       (SPY (quote_of 99.5 100.5 true true)) 0
     = [SendCancelOrder 11]
  /\ AdjustPortfolio
       (host_with 2 [Some {| order_id := 11; order_side := ORDER_SIDE_BUY |}])
       (SPY (quote_of 99.5 100.5 true true)) 2
     = [SendCancelAll "SPY"].
Proof.
  split; [|split].
  - pose proof (AdjustPortfolio_actions (host_with 0 [])
                  (SPY (quote_of 99.5 100.5 true true)) 3) as Hspec.
    cbv zeta in Hspec.
    destruct Hspec as (_ & _ & Hbuy & _).
    apply Hbuy; reflexivity.
  - pose proof (AdjustPortfolio_actions
                  (host_with 2 [Some {| order_id := 11;
                                        order_side := ORDER_SIDE_BUY |}])
                  (SPY (quote_of 99.5 100.5 true true)) 0) as Hspec.
    cbv zeta in Hspec.
    destruct Hspec as (_ & _ & _ & _ & _ & Hcancel & _).
    apply (Hcancel {| order_id := 11; order_side := ORDER_SIDE_BUY |} []).
    + reflexivity.
    + left. split; reflexivity.
  - pose proof (AdjustPortfolio_actions
                  (host_with 2 [Some {| order_id := 11;
                                        order_side := ORDER_SIDE_BUY |}])
                  (SPY (quote_of 99.5 100.5 true true)) 2) as Hspec.
    cbv zeta in Hspec.
    destruct Hspec as (Hall & _).
    apply Hall; [reflexivity|discriminate].
Defined.


Lemma decision_thresholds_witness :
  entry_threshold_bps_ example_config = 2%float
  /\ max_inventory_ example_config = 5
  /\ position_size_ example_config = 1
  /\ desired_position example_config 0 (-3)%float = 1
  /\ desired_position example_config 0 3%float = -1
  /\ signal example_config 0 2%float = NO_SIGNAL
  /\ signal example_config 0 (-2)%float = NO_SIGNAL.
Proof.
  assert (Hthr : entry_threshold_bps_ example_config = 2%float) by reflexivity.
  assert (Hmax : max_inventory_ example_config = 5) by reflexivity.
  assert (Hsize : position_size_ example_config = 1) by reflexivity.
  destruct decision_thresholds as (_ & Hexamples & Hboundary).
  destruct (Hexamples example_config Hthr Hmax Hsize)
    as ((_ & Hbuy) & (_ & Hsell) & _).
  assert (Hpos : PrimFloat.leb 0 (entry_threshold_bps_ example_config) = true)
    by reflexivity.
  assert (Hcap : 0 < max_inventory_ example_config) by reflexivity.
  destruct (Hboundary example_config Hpos Hcap) as (Hat & Hopp).
  split; [exact Hthr|]. split; [exact Hmax|]. split; [exact Hsize|].
  split; [exact Hbuy|]. split; [exact Hsell|]. split; [exact Hat|exact Hopp].
Defined.

(** ** Binary64: whole runs *)

(** The documented scenario end to end: the first two trades leave the
    window not ready, the third finds VWAP 99.775 and a deviation of
    about -7.5 bps, and buys one unit at the ask. *)
Example documented_scenario :
  option_map snd
    (OnTrades microsecond_clock (host_with 0 []) scenario_trades example_config)
  = Some [market_order (SPY scenario_quote) 1 ORDER_SIDE_BUY
            (ask scenario_quote)]
  /\ option_map (fun r => GetVWAP (fst r))
       (OnTrades microsecond_clock (host_with 0 []) scenario_trades
          example_config)
     = Some (PrimFloat.div 39910 400).
Proof.
  split; vm_compute; reflexivity.
Qed.

(** C4, counterexample.  Outside the time order of the data model the
    readiness rule differs from the length of the span: the window holds
    two records, the newest 0.5 s older than the oldest, under a window
    length of 0 s.  The span of -0.5 s is less than 0 s, but
    [total_seconds] truncates it to 0 s, which reaches the window
    length: IsVWAPReady returns true. *)
Lemma IsVWAPReady_out_of_order :
  front (vwap_window_ out_of_order_window)
  = Some {| timestamp := 1000000; price := 100%float; volume := 10 |}
  /\ back (vwap_window_ out_of_order_window)
     = Some {| timestamp := 500000; price := 100%float; volume := 10 |}
  /\ Z.of_nat (List.length (vwap_window_ out_of_order_window)) = 2
  /\ 500000 - 1000000
     < seconds microsecond_clock (vwap_window_seconds_ out_of_order_window)
  /\ IsVWAPReady microsecond_clock out_of_order_window = Some true
  /\ ~ (IsVWAPReady microsecond_clock out_of_order_window = Some true
        <-> 3 <= Z.of_nat (List.length (vwap_window_ out_of_order_window))
            \/ seconds microsecond_clock
                 (vwap_window_seconds_ out_of_order_window)
               <= 500000 - 1000000).
Proof.
  split; [reflexivity|]. split; [reflexivity|]. split; [reflexivity|].
  split; [vm_compute; reflexivity|]. split; [reflexivity|].
  intros [Hready _].
  destruct (Hready eq_refl) as [Hsize|Hspan].
  - vm_compute in Hsize. apply Hsize. reflexivity.
  - vm_compute in Hspan. apply Hspan. reflexivity.
Qed.

(** * Further properties of the code *)

(** ** Pruning *)

Lemma wrap_idempotent (z : Z) : Int32.wrap (Int32.wrap z) = Int32.wrap z.
Proof.
  replace (Int32.wrap z) with (Int32.wrap z + 0) at 1 by ring.
  rewrite wrap_add_l. f_equal. ring.
Qed.

Section Pruning.

Context {D : Type} `{Double D}.

Implicit Types (s : VWAPStrategy D) (w : list (VWAPTradeRecord D)).

(** The loop splits the window into the records it removes, all older
    than the cutoff, and the rest; the volume accumulator goes down by
    the volume removed. *)
Lemma prune_loop_split cutoff w pv vol :
  exists removed,
    w = removed ++ fst (fst (prune_loop cutoff w pv vol))
    /\ Forall (fun r => timestamp r < cutoff) removed
    /\ Int32.wrap (snd (prune_loop cutoff w pv vol))
       = Int32.wrap (vol - sum_volume removed).
Proof.
  revert pv vol. induction w as [|r w IH]; intros pv vol; simpl.
  - exists []. repeat split; [constructor | f_equal; simpl; ring].
  - destruct (timestamp r <? cutoff) eqn:Hold.
    + destruct (IH (dsub pv (dmul (price r) (of_int (volume r))))
                   (Int32.sub vol (volume r)))
        as (removed & Hsplit & Hall & Hvol).
      exists (r :: removed). repeat split.
      * simpl. f_equal. exact Hsplit.
      * constructor; [apply Z.ltb_lt; exact Hold | exact Hall].
      * rewrite Hvol. unfold Int32.sub.
        change (sum_volume (r :: removed)) with (volume r + sum_volume removed).
        rewrite wrap_sub_l. f_equal. ring.
    + exists []. repeat split; [constructor | f_equal; simpl; ring].
Qed.

Lemma PruneOldTrades_window cutoff s :
  vwap_window_ (PruneOldTrades cutoff s)
  = fst (fst (prune_loop cutoff (vwap_window_ s)
                (cumulative_pv_ s) (cumulative_volume_ s))).
Proof.
  unfold PruneOldTrades. name_pruned w pv vol. reflexivity.
Qed.

Lemma PruneOldTrades_volume cutoff s :
  cumulative_volume_ (PruneOldTrades cutoff s)
  = snd (prune_loop cutoff (vwap_window_ s)
           (cumulative_pv_ s) (cumulative_volume_ s)).
Proof.
  unfold PruneOldTrades. name_pruned w pv vol. reflexivity.
Qed.

Lemma PruneOldTrades_config cutoff s : same_config s (PruneOldTrades cutoff s).
Proof.
  unfold PruneOldTrades. name_pruned w pv vol.
  repeat split.
Qed.

Lemma AddTradeToWindow_config p v t s : same_config s (AddTradeToWindow p v t s).
Proof. repeat split. Qed.

(** X1.  PruneOldTrades removes a front segment of the window and
    nothing else: every record it removes is older than the cutoff, the
    record left at the front (if any) is not, the volume accumulator
    goes down by the volume of the removed records (in 32-bit
    arithmetic), and the configuration is not touched. *)
Theorem PruneOldTrades_removes_old_prefix (cutoff_time : TimeType)
    (s : VWAPStrategy D) :
  exists removed,
    vwap_window_ s = removed ++ vwap_window_ (PruneOldTrades cutoff_time s)
    /\ Forall (fun r => timestamp r < cutoff_time) removed
    /\ (forall r, front (vwap_window_ (PruneOldTrades cutoff_time s)) = Some r ->
        cutoff_time <= timestamp r)
    /\ Int32.wrap (cumulative_volume_ (PruneOldTrades cutoff_time s))
       = Int32.wrap (cumulative_volume_ s - sum_volume removed)
    /\ same_config s (PruneOldTrades cutoff_time s).
Proof.
  destruct (prune_loop_split cutoff_time (vwap_window_ s)
              (cumulative_pv_ s) (cumulative_volume_ s))
    as (removed & Hsplit & Hold & Hvol).
  exists removed.
  rewrite PruneOldTrades_window, PruneOldTrades_volume.
  split; [exact Hsplit|]. split; [exact Hold|]. split.
  - intros r. apply prune_loop_front.
  - split; [exact Hvol | apply PruneOldTrades_config].
Qed.

(** On a window in time order every record from the first recent one on
    is recent. *)
Lemma filter_recent_all cutoff r w :
  time_ordered (r :: w) -> cutoff <= timestamp r ->
  filter (recent cutoff) (r :: w) = r :: w.
Proof.
  intros Hsorted Hr. apply StronglySorted_inv in Hsorted.
  destruct Hsorted as [_ Hall].
  assert (Hw : Forall (fun x => recent cutoff x = true) (r :: w)).
  { constructor.
    - apply Z.leb_le. exact Hr.
    - apply Forall_impl with (2 := Hall).
      intros x Hx. apply Z.leb_le. unfold not_after in Hx. lia. }
  clear Hall Hr. induction Hw as [|x l Hx _ IH]; simpl; [reflexivity|].
  rewrite Hx, IH. reflexivity.
Qed.

Lemma prune_loop_filter cutoff w pv vol :
  time_ordered w ->
  fst (fst (prune_loop cutoff w pv vol)) = filter (recent cutoff) w.
Proof.
  revert pv vol. induction w as [|r w IH]; intros pv vol Hsorted.
  - reflexivity.
  - cbn [prune_loop]. destruct (timestamp r <? cutoff) eqn:Hold.
    + cbn [filter]. unfold recent at 1.
      assert (Hnot : (cutoff <=? timestamp r) = false)
        by (apply Z.leb_gt, Z.ltb_lt; exact Hold).
      rewrite Hnot. apply IH.
      apply StronglySorted_inv in Hsorted. exact (proj1 Hsorted).
    + symmetry. apply filter_recent_all; [exact Hsorted|].
      apply Z.ltb_ge. exact Hold.
Qed.

(** X2.  On a window in time order PruneOldTrades keeps exactly the
    records that are not older than the cutoff. *)
Theorem PruneOldTrades_keeps_recent (cutoff_time : TimeType)
    (s : VWAPStrategy D) :
  time_ordered (vwap_window_ s) ->
  vwap_window_ (PruneOldTrades cutoff_time s)
  = filter (recent cutoff_time) (vwap_window_ s).
Proof.
  intros Hsorted. rewrite PruneOldTrades_window.
  apply prune_loop_filter, Hsorted.
Qed.

Lemma prune_loop_later cutoff1 cutoff2 w pv vol :
  cutoff1 <= cutoff2 ->
  prune_loop cutoff2
    (fst (fst (prune_loop cutoff1 w pv vol)))
    (snd (fst (prune_loop cutoff1 w pv vol)))
    (snd (prune_loop cutoff1 w pv vol))
  = prune_loop cutoff2 w pv vol.
Proof.
  intros Hle. revert pv vol.
  induction w as [|r w IH]; intros pv vol.
  - reflexivity.
  - cbn [prune_loop]. destruct (timestamp r <? cutoff1) eqn:Hold1.
    + assert (Hold2 : (timestamp r <? cutoff2) = true).
      { apply Z.ltb_lt. apply Z.ltb_lt in Hold1. lia. }
      rewrite Hold2. apply IH.
    + reflexivity.
Qed.

(** X3.  Pruning with a cutoff and then with a later one is pruning
    with the later one: window and accumulators end up the same. *)
Theorem PruneOldTrades_later_cutoff (cutoff1 cutoff2 : TimeType)
    (s : VWAPStrategy D) :
  cutoff1 <= cutoff2 ->
  PruneOldTrades cutoff2 (PruneOldTrades cutoff1 s)
  = PruneOldTrades cutoff2 s.
Proof.
  intros Hle. unfold PruneOldTrades at 1 3.
  rewrite <- (prune_loop_later cutoff1 cutoff2 (vwap_window_ s)
                (cumulative_pv_ s) (cumulative_volume_ s) Hle).
  unfold PruneOldTrades.
  destruct (prune_loop cutoff1 (vwap_window_ s) (cumulative_pv_ s)
              (cumulative_volume_ s)) as [[w1 pv1] vol1].
  simpl.
  destruct (prune_loop cutoff2 w1 pv1 vol1) as [[w2 pv2] vol2].
  reflexivity.
Qed.

End Pruning.

(** ** The trade callback as a whole *)

Lemma time_ordered_suffix {D : Type} (removed rest : list (VWAPTradeRecord D)) :
  time_ordered (removed ++ rest) -> time_ordered rest.
Proof.
  induction removed as [|r removed IH]; simpl; intros Hsorted.
  - exact Hsorted.
  - apply IH. apply StronglySorted_inv in Hsorted. exact (proj1 Hsorted).
Qed.

Section Trades.

Context {D : Type} `{Double D}.

Variable ticks_per_second : Z.

Implicit Types (s : VWAPStrategy D) (msg : TradeDataEventMsg D) (host : Host).

Lemma AdjustPortfolio_length host (instrument : Instrument D) desired :
  (List.length (AdjustPortfolio host instrument desired) <= 1)%nat.
Proof.
  destruct (Z.eq_dec (Int32.sub desired (position host (symbol instrument))) 0)
    as [Hsize|Hsize].
  - rewrite (AdjustPortfolio_zero _ _ _ Hsize).
    destruct (working_orders host (symbol instrument)); simpl; lia.
  - rewrite (AdjustPortfolio_nonzero _ _ _ Hsize).
    destruct (working_orders host (symbol instrument)) as [|[order|] rest];
      simpl; try lia.
    + unfold SendOrder. destruct (_ || _); simpl; lia.
    + destruct (_ || _); simpl; lia.
Qed.

Lemma OnTrade_state host msg s s' actions :
  OnTrade ticks_per_second host msg s = Some (s', actions) ->
  s' = after_trade ticks_per_second msg s.
Proof.
  unfold OnTrade, after_trade, cutoff_of. cbn zeta.
  change (vwap_window_seconds_
            (AddTradeToWindow (trade_price msg) (trade_size msg)
               (event_time msg) s))
    with (vwap_window_seconds_ s).
  destruct (IsVWAPReady _ _) as [[|]|]; [|congruence|discriminate].
  destruct (negb _); congruence.
Qed.

Lemma OnTrade_actions_length host msg s s' actions :
  OnTrade ticks_per_second host msg s = Some (s', actions) ->
  (List.length actions <= 1)%nat.
Proof.
  unfold OnTrade. cbn zeta.
  destruct (IsVWAPReady _ _) as [[|]|]; [| |discriminate].
  - destruct (negb _); intros [= _ <-].
    + simpl. lia.
    + apply AdjustPortfolio_length.
  - intros [= _ <-]. simpl. lia.
Qed.

Lemma after_trade_config msg s : same_config s (after_trade ticks_per_second msg s).
Proof.
  unfold after_trade.
  destruct (PruneOldTrades_config (cutoff_of ticks_per_second msg s)
              (AddTradeToWindow (trade_price msg) (trade_size msg)
                 (event_time msg) s)) as (H1 & H2 & H3 & H4 & H5).
  repeat split; assumption.
Qed.

(** With a window length that is not negative the new record stays. *)
Lemma after_trade_window msg s :
  0 <= ticks_per_second -> 0 <= vwap_window_seconds_ s ->
  exists kept, vwap_window_ (after_trade ticks_per_second msg s) = kept ++ [record_of msg].
Proof.
  intros Htps Hwin. unfold after_trade. rewrite PruneOldTrades_window.
  apply (prune_loop_keeps_back (cutoff_of ticks_per_second msg s)
           (vwap_window_ s) (record_of msg)).
  unfold cutoff_of, seconds. simpl. nia.
Qed.

Lemma OnTrade_runs host msg s :
  0 <= ticks_per_second -> 0 <= vwap_window_seconds_ s ->
  exists actions,
    OnTrade ticks_per_second host msg s = Some (after_trade ticks_per_second msg s, actions).
Proof.
  intros Htps Hwin.
  destruct (OnTrade ticks_per_second host msg s) as [[s' actions]|] eqn:Hrun.
  - exists actions. rewrite (OnTrade_state _ _ _ _ _ Hrun). reflexivity.
  - exfalso. revert Hrun. unfold OnTrade. cbn zeta.
    change (vwap_window_seconds_
              (AddTradeToWindow (trade_price msg) (trade_size msg)
                 (event_time msg) s))
      with (vwap_window_seconds_ s).
    fold (cutoff_of ticks_per_second msg s). fold (after_trade ticks_per_second msg s).
    destruct (after_trade_window msg s Htps Hwin) as [kept Hkept].
    assert (Hready : IsVWAPReady ticks_per_second (after_trade ticks_per_second msg s) <> None).
    { apply IsVWAPReady_defined. rewrite Hkept. destruct kept; discriminate. }
    destruct (IsVWAPReady ticks_per_second (after_trade ticks_per_second msg s)) as [[|]|];
      [|discriminate|congruence].
    destruct (negb _); discriminate.
Qed.

(** X4.  Whenever OnTrade runs to its end, the strategy it leaves is
    the one with the trade added and the old trades pruned, whatever
    the quote, the position and the working orders are; the five
    configuration fields are as before; at most one order action is
    issued; and none when the quote is not valid. *)
Theorem OnTrade_effect (host : Host) (msg : TradeDataEventMsg D)
    (s s' : VWAPStrategy D) (actions : list (TradeAction D)) :
  OnTrade ticks_per_second host msg s = Some (s', actions) ->
  s' = after_trade ticks_per_second msg s
  /\ same_config s s'
  /\ (List.length actions <= 1)%nat
  /\ (IsValid (top_quote (instrument msg)) = false -> actions = []).
Proof.
  intros Hrun.
  pose proof (OnTrade_state _ _ _ _ _ Hrun) as Hstate.
  split; [exact Hstate|]. split; [|split].
  - rewrite Hstate. apply after_trade_config.
  - exact (OnTrade_actions_length _ _ _ _ _ Hrun).
  - intros Hquote. revert Hrun. unfold OnTrade. cbn zeta.
    destruct (IsVWAPReady _ _) as [[|]|]; [| |discriminate].
    + rewrite Hquote. simpl. congruence.
    + congruence.
Qed.

(** X5.  When the trades arrive in time order (the window followed by
    the new record is in time order) and the window length is not
    negative, OnTrade runs to its end and leaves in the window exactly
    the records, old and new, that are not older than event_time minus
    the window length; the window stays in time order. *)
Theorem OnTrade_keeps_recent_trades (host : Host) (msg : TradeDataEventMsg D)
    (s : VWAPStrategy D) :
  0 <= ticks_per_second ->
  0 <= vwap_window_seconds_ s ->
  time_ordered (vwap_window_ s ++ [record_of msg]) ->
  exists s' actions,
    OnTrade ticks_per_second host msg s = Some (s', actions)
    /\ vwap_window_ s'
       = filter (recent (cutoff_of ticks_per_second msg s))
           (vwap_window_ s ++ [record_of msg])
    /\ time_ordered (vwap_window_ s').
Proof.
  intros Htps Hwin Hsorted.
  destruct (OnTrade_runs host msg s Htps Hwin) as [actions Hrun].
  exists (after_trade ticks_per_second msg s), actions.
  split; [exact Hrun|].
  assert (Hfilter : vwap_window_ (after_trade ticks_per_second msg s)
            = filter (recent (cutoff_of ticks_per_second msg s))
                (vwap_window_ s ++ [record_of msg])).
  { unfold after_trade. rewrite PruneOldTrades_window.
    apply prune_loop_filter. exact Hsorted. }
  split; [exact Hfilter|].
  unfold after_trade. rewrite PruneOldTrades_window.
  destruct (prune_loop_suffix (cutoff_of ticks_per_second msg s)
              (vwap_window_ s ++ [record_of msg])
              (cumulative_pv_ (AddTradeToWindow (trade_price msg)
                                 (trade_size msg) (event_time msg) s))
              (cumulative_volume_ (AddTradeToWindow (trade_price msg)
                                     (trade_size msg) (event_time msg) s)))
    as [removed Hsplit].
  apply (time_ordered_suffix removed).
  change (vwap_window_ (AddTradeToWindow (trade_price msg) (trade_size msg)
                          (event_time msg) s))
    with (vwap_window_ s ++ [record_of msg]).
  rewrite <- Hsplit. exact Hsorted.
Qed.

(** X6.  On a strategy whose window is empty (new, or just reset) and
    whose window length is positive, the first trade issues no order
    action: it only enters the window. *)
Theorem OnTrade_first_trade_silent (host : Host) (msg : TradeDataEventMsg D)
    (s : VWAPStrategy D) :
  0 < ticks_per_second ->
  0 < vwap_window_seconds_ s ->
  vwap_window_ s = [] ->
  exists s',
    OnTrade ticks_per_second host msg s = Some (s', [])
    /\ vwap_window_ s' = [record_of msg].
Proof.
  intros Htps Hwin Hempty.
  assert (Hwindow : vwap_window_ (after_trade ticks_per_second msg s) = [record_of msg]).
  { unfold after_trade. rewrite PruneOldTrades_window.
    cbn [AddTradeToWindow with_window vwap_window_ cumulative_pv_
         cumulative_volume_].
    rewrite Hempty. cbn [app prune_loop].
    assert (Hkeep : (event_time msg <? cutoff_of ticks_per_second msg s)
                    = false).
    { apply Z.ltb_ge. unfold cutoff_of, seconds. nia. }
    cbn [timestamp]. rewrite Hkeep. reflexivity. }
  exists (after_trade ticks_per_second msg s). split; [|exact Hwindow].
  unfold OnTrade. cbn zeta.
  change (vwap_window_seconds_
            (AddTradeToWindow (trade_price msg) (trade_size msg)
               (event_time msg) s))
    with (vwap_window_seconds_ s).
  fold (cutoff_of ticks_per_second msg s). fold (after_trade ticks_per_second msg s).
  assert (Hready : IsVWAPReady ticks_per_second (after_trade ticks_per_second msg s)
                   = Some false).
  { unfold IsVWAPReady. rewrite Hwindow. cbn.
    replace (event_time msg - event_time msg) with 0 by ring.
    unfold total_seconds. rewrite Z.quot_0_l by lia.
    destruct (after_trade_config msg s) as (Hsame & _).
    rewrite Hsame.
    assert (Hnot : (vwap_window_seconds_ s <=? 0) = false)
      by (apply Z.leb_gt; exact Hwin).
    rewrite Hnot. reflexivity. }
  rewrite Hready. reflexivity.
Qed.

(** X7.  With a window length that is not negative, a whole session of
    trade callbacks, whatever the host reports at each of them, runs to
    its end without the undefined read of IsVWAPReady; it leaves the
    configuration as it was and issues at most one order action per
    trade. *)
Theorem trade_session_runs (events : list (Host * TradeDataEventMsg D))
    (s : VWAPStrategy D) :
  0 <= ticks_per_second ->
  0 <= vwap_window_seconds_ s ->
  exists s' actions,
    trade_session ticks_per_second events s = Some (s', actions)
    /\ same_config s s'
    /\ (List.length actions <= List.length events)%nat.
Proof.
  intros Htps. revert s.
  induction events as [|[host msg] events IH]; intros s Hwin.
  - exists s, []. repeat split. simpl. lia.
  - destruct (OnTrade_runs host msg s Htps Hwin) as [actions1 Hrun].
    pose proof (OnTrade_actions_length _ _ _ _ _ Hrun) as Hlen1.
    destruct (after_trade_config msg s) as (C1 & C2 & C3 & C4 & C5).
    assert (Hwin' : 0 <= vwap_window_seconds_
                           (after_trade ticks_per_second msg s))
      by (rewrite C1; exact Hwin).
    destruct (IH (after_trade ticks_per_second msg s) Hwin')
      as (s' & actions2 & Hrest & (E1 & E2 & E3 & E4 & E5) & Hlen2).
    exists s', (actions1 ++ actions2).
    cbn [trade_session]. rewrite Hrun, Hrest.
    split; [reflexivity|]. split.
    + repeat split; congruence.
    + rewrite length_app. simpl. lia.
Qed.

End Trades.

(** ** Orders and targets *)

Lemma wrap_range (z : Z) : Int32.in_range (Int32.wrap z).
Proof.
  unfold Int32.in_range, Int32.min_int, Int32.max_int, Int32.wrap.
  pose proof (Z.mod_pos_bound (z + 2 ^ 31) (2 ^ 32)). lia.
Qed.

Lemma abs_nonzero (z : Z) :
  Int32.in_range z -> z <> 0 -> Int32.abs z <> 0.
Proof.
  unfold Int32.in_range, Int32.min_int, Int32.max_int, Int32.abs.
  intros Hrange Hz.
  destruct (Z.eq_dec z (- 2 ^ 31)) as [->|Hmin].
  - vm_compute. discriminate.
  - rewrite wrap_in_range.
    + lia.
    + unfold Int32.in_range, Int32.min_int, Int32.max_int. lia.
Qed.

Lemma abs_in_range (z : Z) :
  Int32.min_int < z <= Int32.max_int -> Int32.abs z = Z.abs z.
Proof.
  unfold Int32.abs, Int32.min_int, Int32.max_int. intros Hz.
  apply wrap_in_range.
  unfold Int32.in_range, Int32.min_int, Int32.max_int. lia.
Qed.

Section Orders.

Context {D : Type} `{Double D}.

(** X8.  AdjustPortfolio sends a new order only when no order is
    working, the trade size is not zero and both sides of the quote are
    valid; the order is then a market order for the day on the
    instrument, with a quantity that is not zero, a buy exactly when
    the trade size is positive.  It cancels all only at a zero trade
    size with an order working, and cancels one order only when that is
    the first working order. *)
Theorem AdjustPortfolio_actions_only_if (host : Host)
    (instrument : Instrument D) (desired : Z) (action : TradeAction D) :
  In action (AdjustPortfolio host instrument desired) ->
  let trade_size := Int32.sub desired (position host (symbol instrument)) in
  let orders := working_orders host (symbol instrument) in
  match action with
  | SendNewOrder params =>
      orders = [] /\ trade_size <> 0 /\ two_sided instrument = true
      /\ params_instrument params = symbol instrument
      /\ params_type params = ORDER_TYPE_MARKET
      /\ params_tif params = ORDER_TIF_DAY
      /\ params_quantity params = Int32.abs trade_size
      /\ params_quantity params <> 0
      /\ (params_side params = ORDER_SIDE_BUY <-> 0 < trade_size)
  | SendCancelOrder id =>
      trade_size <> 0
      /\ exists order rest,
           orders = Some order :: rest /\ order_id order = id
           /\ (order_side order = ORDER_SIDE_BUY <-> trade_size < 0)
  | SendCancelAll name =>
      trade_size = 0 /\ orders <> [] /\ name = symbol instrument
  end.
Proof.
  intros Hin trade_size orders.
  destruct (Z.eq_dec trade_size 0) as [Hsize|Hsize].
  - rewrite (AdjustPortfolio_zero _ _ _ Hsize) in Hin. fold orders in Hin.
    destruct orders as [|first rest] eqn:Horders; simpl in Hin.
    + contradiction.
    + destruct Hin as [<-|[]].
      split; [exact Hsize|]. split; [discriminate|reflexivity].
  - rewrite (AdjustPortfolio_nonzero _ _ _ Hsize) in Hin.
    fold orders in Hin. fold trade_size in Hin.
    destruct orders as [|[order|] rest] eqn:Horders.
    + destruct (two_sided instrument) eqn:Hquote.
      * rewrite (SendOrder_two_sided _ _ Hquote) in Hin.
        destruct Hin as [<-|[]]. unfold market_order. cbn.
        assert (Hq : Int32.abs trade_size <> 0)
          by (apply abs_nonzero; [apply wrap_range | exact Hsize]).
        repeat split; try assumption.
        -- destruct (0 <? trade_size) eqn:Hpos; [|discriminate].
           intros _. apply Z.ltb_lt. exact Hpos.
        -- intros Hpos. apply Z.ltb_lt in Hpos. rewrite Hpos. reflexivity.
      * rewrite (SendOrder_one_sided _ _ Hquote) in Hin. contradiction.
    + destruct (order_side order) eqn:Hside; simpl in Hin.
      * destruct (trade_size <? 0) eqn:Hneg; simpl in Hin; [|contradiction].
        destruct Hin as [<-|[]]. split; [exact Hsize|].
        exists order, rest. apply Z.ltb_lt in Hneg. rewrite Hside.
        repeat split; intros; assumption || reflexivity.
      * destruct (0 <? trade_size) eqn:Hpos; simpl in Hin; [|contradiction].
        destruct Hin as [<-|[]]. split; [exact Hsize|].
        exists order, rest. apply Z.ltb_lt in Hpos. rewrite Hside.
        repeat split; intros; try discriminate; lia.
    + contradiction.
Qed.

(** X9.  The target never leaves the inventory cap by more than one
    order: for a position and sizes that stay clear of the ends of the
    int range, |desired_position| is at most
    max_inventory_ - 1 + position_size_ (or 0 if that is negative),
    whatever the position and the deviation are. *)
Theorem desired_position_within_cap (s : VWAPStrategy D)
    (current_position : Z) (deviation_bps : D) :
  Int32.min_int < current_position <= Int32.max_int ->
  0 <= position_size_ s ->
  max_inventory_ s - 1 + position_size_ s <= Int32.max_int ->
  Z.abs (desired_position s current_position deviation_bps)
  <= Z.max 0 (max_inventory_ s - 1 + position_size_ s).
Proof.
  intros Hcur Hsize Hcap.
  unfold desired_position, signal.
  rewrite (abs_in_range _ Hcur).
  destruct ((0 <? current_position) && _); [simpl; lia|].
  destruct ((current_position <? 0) && _); [simpl; lia|].
  destruct (Z.abs current_position <? max_inventory_ s) eqn:Hroom;
    [|simpl; lia].
  apply Z.ltb_lt in Hroom.
  unfold Int32.min_int, Int32.max_int in *.
  destruct (dltb deviation_bps _).
  - unfold Int32.add. rewrite wrap_in_range.
    + lia.
    + unfold Int32.in_range, Int32.min_int, Int32.max_int. lia.
  - destruct (dltb _ deviation_bps); [|simpl; lia].
    unfold Int32.sub. rewrite wrap_in_range.
    + lia.
    + unfold Int32.in_range, Int32.min_int, Int32.max_int. lia.
Qed.

End Orders.

(** ** Binary64: not-a-number *)

(** [x != x] holds of NaN and of nothing else. *)
Lemma is_nan_SF (x : float) : PrimFloat.eqb x x = false -> Prim2SF x = S754_nan.
Proof.
  rewrite FloatAxioms.eqb_spec. unfold SFeqb, SFcompare.
  destruct (Prim2SF x) as [sg|sg| |sg m e]; try reflexivity.
  - discriminate.
  - destruct sg; discriminate.
  - destruct sg; rewrite Z.compare_refl, Pos.compare_cont_refl; discriminate.
Qed.

Lemma SF_is_nan (x : float) : Prim2SF x = S754_nan -> PrimFloat.eqb x x = false.
Proof. intros Hx. rewrite FloatAxioms.eqb_spec, Hx. reflexivity. Qed.

(** Every comparison with NaN is false. *)
Lemma nan_leb_r (x y : float) : Prim2SF y = S754_nan -> PrimFloat.leb x y = false.
Proof.
  intros Hy. rewrite FloatAxioms.leb_spec, Hy. unfold SFleb, SFcompare.
  destruct (Prim2SF x) as [sg|sg| |sg m e]; reflexivity.
Qed.

Lemma nan_leb_l (x y : float) : Prim2SF x = S754_nan -> PrimFloat.leb x y = false.
Proof. intros Hx. rewrite FloatAxioms.leb_spec, Hx. reflexivity. Qed.

Lemma nan_ltb_r (x y : float) : Prim2SF y = S754_nan -> PrimFloat.ltb x y = false.
Proof.
  intros Hy. rewrite FloatAxioms.ltb_spec, Hy. unfold SFltb, SFcompare.
  destruct (Prim2SF x) as [sg|sg| |sg m e]; reflexivity.
Qed.

Lemma nan_ltb_l (x y : float) : Prim2SF x = S754_nan -> PrimFloat.ltb x y = false.
Proof. intros Hx. rewrite FloatAxioms.ltb_spec, Hx. reflexivity. Qed.

Lemma nan_eqb_l (x y : float) : Prim2SF x = S754_nan -> PrimFloat.eqb x y = false.
Proof. intros Hx. rewrite FloatAxioms.eqb_spec, Hx. reflexivity. Qed.

(** NaN goes through the arithmetic of [CalculateDeviation]. *)
Lemma nan_sub_l (x y : float) :
  Prim2SF x = S754_nan -> Prim2SF (PrimFloat.sub x y) = S754_nan.
Proof. intros Hx. rewrite FloatAxioms.sub_spec, Hx. reflexivity. Qed.

Lemma nan_sub_r (x y : float) :
  Prim2SF y = S754_nan -> Prim2SF (PrimFloat.sub x y) = S754_nan.
Proof.
  intros Hy. rewrite FloatAxioms.sub_spec, Hy. unfold SF64sub, SFsub.
  destruct (Prim2SF x) as [sg|sg| |sg m e]; reflexivity.
Qed.

Lemma nan_div_l (x y : float) :
  Prim2SF x = S754_nan -> Prim2SF (PrimFloat.div x y) = S754_nan.
Proof. intros Hx. rewrite FloatAxioms.div_spec, Hx. reflexivity. Qed.

Lemma nan_mul_l (x y : float) :
  Prim2SF x = S754_nan -> Prim2SF (PrimFloat.mul x y) = S754_nan.
Proof. intros Hx. rewrite FloatAxioms.mul_spec, Hx. reflexivity. Qed.

Lemma CalculateDeviation_nan (mid_price vwap : float) :
  PrimFloat.eqb vwap vwap = false
  \/ (PrimFloat.eqb mid_price mid_price = false
      /\ PrimFloat.eqb vwap 0 = false) ->
  Prim2SF (CalculateDeviation mid_price vwap) = S754_nan.
Proof.
  intros Hnan. unfold CalculateDeviation. cbn [deqb dmul ddiv dsub ieee754].
  change (of_int 0) with 0%float.
  destruct Hnan as [Hvwap | [Hmid Hnonzero]].
  - apply is_nan_SF in Hvwap. rewrite (nan_eqb_l _ _ Hvwap).
    apply nan_mul_l, nan_div_l, nan_sub_r. exact Hvwap.
  - rewrite Hnonzero. apply is_nan_SF in Hmid.
    apply nan_mul_l, nan_div_l, nan_sub_l. exact Hmid.
Qed.

Lemma signal_nan (s : VWAPStrategy float) (current_position : Z)
    (deviation_bps : float) :
  Prim2SF deviation_bps = S754_nan ->
  signal s current_position deviation_bps = NO_SIGNAL.
Proof.
  intros Hnan. apply signal_none; cbn [dleb dltb dneg ieee754].
  - rewrite (nan_leb_r _ _ Hnan). apply andb_false_r.
  - rewrite (nan_leb_l _ _ Hnan). apply andb_false_r.
  - right. split; [apply nan_ltb_l | apply nan_ltb_r]; exact Hnan.
Qed.

(** X10.  In binary64, when the VWAP is NaN (or the mid-price is NaN and
    the VWAP is not zero), the deviation is NaN, no exit or entry rule
    fires, and the target is 0 whatever the position: a held position is
    sold off. *)
Theorem nan_deviation_targets_flat (s : VWAPStrategy float)
    (current_position : Z) (mid_price vwap : float) :
  PrimFloat.eqb vwap vwap = false
  \/ (PrimFloat.eqb mid_price mid_price = false
      /\ PrimFloat.eqb vwap 0 = false) ->
  let deviation_bps := CalculateDeviation mid_price vwap in
  PrimFloat.eqb deviation_bps deviation_bps = false
  /\ signal s current_position deviation_bps = NO_SIGNAL
  /\ desired_position s current_position deviation_bps = 0.
Proof.
  intros Hnan deviation_bps.
  pose proof (CalculateDeviation_nan mid_price vwap Hnan) as Hdev.
  fold deviation_bps in Hdev.
  pose proof (signal_nan s current_position deviation_bps Hdev) as Hsig.
  split; [apply SF_is_nan; exact Hdev|]. split; [exact Hsig|].
  apply desired_position_no_signal. exact Hsig.
Qed.

(** ** Parameters, tables and commands *)

Section Params.

Context {D : Type}.

Variable Get_int : StrategyParam D -> Z -> bool * Z.
Variable Get_double : StrategyParam D -> D -> bool * D.
Variable Get_bool : StrategyParam D -> bool -> bool * bool.

Lemma get_or_throw_window {A : Type} (got : bool * A)
    (set : A -> VWAPStrategy D -> VWAPStrategy D) (what : string)
    (s : VWAPStrategy D) :
  (forall v, same_window s (set v s)) ->
  same_window s (fst (get_or_throw got set what s)).
Proof.
  intros Hset. unfold get_or_throw. simpl. apply Hset.
Qed.

Lemma OnParamChanged_same_window (param : StrategyParam D) (s : VWAPStrategy D) :
  same_window s (fst (OnParamChanged Get_int Get_double Get_bool param s)).
Proof.
  unfold OnParamChanged.
  repeat match goal with
  | |- context [String.eqb (param_name param) ?n] =>
      destruct (String.eqb (param_name param) n)
  end;
  try (apply get_or_throw_window; intros v; repeat split).
  repeat split.
Qed.

(** X11.  Whatever its name and value, and whatever [Get] does with it,
    a parameter update leaves the window and both accumulators as they
    are and changes no configuration field other than the one it
    names. *)
Theorem OnParamChanged_touches_one_field (param : StrategyParam D)
    (s : VWAPStrategy D) :
  let result := OnParamChanged Get_int Get_double Get_bool param s in
  same_window s (fst result)
  /\ (forall f, param_name param <> field_name f ->
      field_value f (fst result) = field_value f s).
Proof.
  intros result. split; [apply OnParamChanged_same_window|].
  unfold result, OnParamChanged, get_or_throw.
  repeat match goal with
  | |- context [String.eqb (param_name param) ?n] =>
      destruct (String.eqb_spec (param_name param) n) as [Heq|_]
  end; simpl.
  all: intros f Hf; destruct f; simpl in Hf; congruence || reflexivity.
Qed.

End Params.

(** X12.  Every parameter DefineStrategyParams registers is one
    OnParamChanged handles with the registered type: sending a
    registered parameter back with the value it was registered with
    returns without an exception and leaves the strategy exactly as it
    is.  The table covers each of the five configuration fields with
    its current value. *)
Theorem DefineStrategyParams_round_trip {D : Type} (s : VWAPStrategy D) :
  (forall args, In args (DefineStrategyParams s) ->
     OnParamChanged Get_int_strict Get_double_strict Get_bool_strict
       (param_of_args args) s = (s, Returned))
  /\ (forall f, exists args,
        In args (DefineStrategyParams s)
        /\ args_name args = field_name f
        /\ args_default args = field_value f s).
Proof.
  split.
  - intros args Hin. destruct s.
    repeat (destruct Hin as [<-|Hin]; [reflexivity|]).
    contradiction.
  - intros f. destruct f; eexists.
    + split; [simpl; left; reflexivity | split; reflexivity].
    + split; [simpl; right; left; reflexivity | split; reflexivity].
    + split; [simpl; do 2 right; left; reflexivity | split; reflexivity].
    + split; [simpl; do 3 right; left; reflexivity | split; reflexivity].
    + split; [simpl; do 4 right; left; reflexivity | split; reflexivity].
Qed.

(** X13.  OnStrategyCommand acts on exactly the command ids that
    DefineStrategyCommands registers: a registered id cancels all
    orders, any other id does nothing. *)
Theorem OnStrategyCommand_registered (command_id : Z) :
  (In command_id (map fst DefineStrategyCommands) ->
   OnStrategyCommand command_id = [SendCancelAllOrders])
  /\ (~ In command_id (map fst DefineStrategyCommands) ->
      OnStrategyCommand command_id = []).
Proof.
  unfold OnStrategyCommand, DefineStrategyCommands. simpl. split.
  - intros [<-|[]]. reflexivity.
  - intros Hnot. destruct (Z.eqb_spec command_id 1) as [->|_].
    + exfalso. apply Hnot. left. reflexivity.
    + reflexivity.
Qed.

(** ** What every reachable strategy satisfies *)

Section Reachable.

Context {D : Type} `{Double D}.

Variable ticks_per_second : Z.
Variable Get_int : StrategyParam D -> Z -> bool * Z.
Variable Get_double : StrategyParam D -> D -> bool * D.
Variable Get_bool : StrategyParam D -> bool -> bool * bool.

Lemma after_trade_as_steps (msg : TradeDataEventMsg D) (s : VWAPStrategy D) :
  after_trade ticks_per_second msg s
  = window_run [OpAdd (trade_price msg) (trade_size msg) (event_time msg);
                OpPrune (cutoff_of ticks_per_second msg s)] s.
Proof. reflexivity. Qed.

Lemma reachable_volume (s : VWAPStrategy D) :
  reachable ticks_per_second Get_int Get_double Get_bool s ->
  volume_matches_int s.
Proof.
  induction 1 as [|s host msg s' actions _ IH Hrun|s param _ IH|s _ IH].
  - reflexivity.
  - rewrite (OnTrade_state _ _ _ _ _ _ Hrun), after_trade_as_steps.
    apply window_run_volume, IH.
  - destruct (OnParamChanged_same_window Get_int Get_double Get_bool param s)
      as (Hw & _ & Hvol).
    unfold volume_matches_int in *. rewrite Hw, Hvol. exact IH.
  - reflexivity.
Qed.

Lemma reachable_pv `{!ExactSums D} (s : VWAPStrategy D) :
  reachable ticks_per_second Get_int Get_double Get_bool s ->
  pv_matches s.
Proof.
  induction 1 as [|s host msg s' actions _ IH Hrun|s param _ IH|s _ IH].
  - reflexivity.
  - rewrite (OnTrade_state _ _ _ _ _ _ Hrun), after_trade_as_steps.
    apply window_run_pv, IH.
  - destruct (OnParamChanged_same_window Get_int Get_double Get_bool param s)
      as (Hw & Hpv & _).
    unfold pv_matches in *. rewrite Hw, Hpv. exact IH.
  - reflexivity.
Qed.

(** X14.  The accumulators follow the window through the callbacks:
    after construction and any number of OnTrade, OnParamChanged
    (returning or throwing) and OnResetStrategyState calls,
    cumulative_volume_ is the 32-bit sum of the volumes in the window,
    and in exact arithmetic cumulative_pv_ is the sum of price x volume
    over the window. *)
Theorem reachable_accumulators (s : VWAPStrategy D) :
  reachable ticks_per_second Get_int Get_double Get_bool s ->
  cumulative_volume_ s = Int32.wrap (sum_volume (vwap_window_ s))
  /\ (ExactSums D -> cumulative_pv_ s = sum_pv (vwap_window_ s)).
Proof.
  intros Hreach. split.
  - exact (reachable_volume s Hreach).
  - intros Hexact. exact (reachable_pv s Hreach).
Qed.

End Reachable.

(** ** The further statements at concrete inputs *)

Lemma three_in_order_ordered : time_ordered three_in_order.
Proof.
  unfold time_ordered, three_in_order.
  repeat constructor; unfold not_after; simpl; lia.
Qed.

Lemma PruneOldTrades_keeps_recent_witness :
  time_ordered (vwap_window_ holding_three)
  /\ vwap_window_ (PruneOldTrades 1000000 holding_three)
     = filter (recent 1000000) (vwap_window_ holding_three).
Proof.
  assert (Hsorted : time_ordered (vwap_window_ holding_three))
    by exact three_in_order_ordered.
  split; [exact Hsorted|].
  exact (PruneOldTrades_keeps_recent 1000000 holding_three Hsorted).
Defined.

Lemma PruneOldTrades_later_cutoff_witness :
  500000 <= 1500000
  /\ PruneOldTrades 1500000 (PruneOldTrades 500000 holding_three)
     = PruneOldTrades 1500000 holding_three.
Proof.
  assert (Hle : 500000 <= 1500000) by lia.
  split; [exact Hle|].
  exact (PruneOldTrades_later_cutoff 500000 1500000 holding_three Hle).
Defined.

Lemma OnTrade_effect_witness :
  OnTrade microsecond_clock (host_with 0 []) fourth_trade holding_three_short
  = Some (after_trade microsecond_clock fourth_trade holding_three_short,
          [market_order (SPY plain_quote) 1 ORDER_SIDE_SELL 99.5%float])
  /\ same_config holding_three_short
       (after_trade microsecond_clock fourth_trade holding_three_short).
Proof.
  assert (Hrun : OnTrade microsecond_clock (host_with 0 []) fourth_trade
                   holding_three_short
                 = Some (after_trade microsecond_clock fourth_trade
                           holding_three_short,
                         [market_order (SPY plain_quote) 1 ORDER_SIDE_SELL
                            99.5%float]))
    by (vm_compute; reflexivity).
  split; [exact Hrun|].
  exact (proj1 (proj2 (OnTrade_effect microsecond_clock _ _ _ _ _ Hrun))).
Defined.

Lemma OnTrade_keeps_recent_trades_witness :
  0 <= microsecond_clock
  /\ 0 <= vwap_window_seconds_ holding_three_short
  /\ time_ordered (vwap_window_ holding_three_short ++ [record_of fourth_trade])
  /\ exists s' actions,
       OnTrade microsecond_clock (host_with 0 []) fourth_trade
         holding_three_short = Some (s', actions)
       /\ vwap_window_ s'
          = filter (recent (cutoff_of microsecond_clock fourth_trade
                              holding_three_short))
              (vwap_window_ holding_three_short ++ [record_of fourth_trade])
       /\ time_ordered (vwap_window_ s').
Proof.
  assert (Hclock : 0 <= microsecond_clock) by (unfold microsecond_clock; lia).
  assert (Hwin : 0 <= vwap_window_seconds_ holding_three_short)
    by (simpl; lia).
  assert (Hsorted : time_ordered (vwap_window_ holding_three_short
                                  ++ [record_of fourth_trade])).
  { change (vwap_window_ holding_three_short) with three_in_order.
    unfold time_ordered, three_in_order.
    repeat constructor; unfold not_after; simpl; lia. }
  split; [exact Hclock|]. split; [exact Hwin|]. split; [exact Hsorted|].
  exact (OnTrade_keeps_recent_trades microsecond_clock (host_with 0 [])
           fourth_trade holding_three_short Hclock Hwin Hsorted).
Defined.

Lemma OnTrade_first_trade_silent_witness :
  0 < microsecond_clock
  /\ 0 < vwap_window_seconds_ (VWAPStrategy_new (D := float))
  /\ vwap_window_ (VWAPStrategy_new (D := float)) = []
  /\ exists s',
       OnTrade microsecond_clock (host_with 0 []) first_trade VWAPStrategy_new
       = Some (s', [])
       /\ vwap_window_ s' = [record_of first_trade].
Proof.
  assert (Hclock : 0 < microsecond_clock) by reflexivity.
  assert (Hwin : 0 < vwap_window_seconds_ (VWAPStrategy_new (D := float)))
    by reflexivity.
  assert (Hempty : vwap_window_ (VWAPStrategy_new (D := float)) = [])
    by reflexivity.
  split; [exact Hclock|]. split; [exact Hwin|]. split; [exact Hempty|].
  exact (OnTrade_first_trade_silent microsecond_clock (host_with 0 [])
           first_trade VWAPStrategy_new Hclock Hwin Hempty).
Defined.

Lemma trade_session_runs_witness :
  0 <= microsecond_clock
  /\ 0 <= vwap_window_seconds_ example_config
  /\ exists s' actions,
       trade_session microsecond_clock scenario_session example_config
       = Some (s', actions)
       /\ same_config example_config s'
       /\ (List.length actions <= List.length scenario_session)%nat.
Proof.
  assert (Hclock : 0 <= microsecond_clock) by (unfold microsecond_clock; lia).
  assert (Hwin : 0 <= vwap_window_seconds_ example_config) by (simpl; lia).
  split; [exact Hclock|]. split; [exact Hwin|].
  exact (trade_session_runs microsecond_clock scenario_session
           example_config Hclock Hwin).
Defined.

Lemma AdjustPortfolio_actions_only_if_witness :
  In (market_order (SPY plain_quote) 3 ORDER_SIDE_BUY 100.5%float)
     (AdjustPortfolio (host_with 0 []) (SPY plain_quote) 3)
  /\ working_orders (host_with 0 []) "SPY" = []
  /\ two_sided (SPY plain_quote) = true.
Proof.
  assert (Hin : In (market_order (SPY plain_quote) 3 ORDER_SIDE_BUY 100.5%float)
                  (AdjustPortfolio (host_with 0 []) (SPY plain_quote) 3))
    by (left; reflexivity).
  split; [exact Hin|].
  pose proof (AdjustPortfolio_actions_only_if (host_with 0 [])
                (SPY plain_quote) 3 _ Hin) as Hspec.
  cbv zeta in Hspec. unfold market_order in Hspec.
  destruct Hspec as (Horders & _ & Hquote & _).
  split; [exact Horders | exact Hquote].
Defined.

Lemma desired_position_within_cap_witness :
  Int32.min_int < 4 <= Int32.max_int
  /\ 0 <= position_size_ example_config
  /\ max_inventory_ example_config - 1 + position_size_ example_config
     <= Int32.max_int
  /\ Z.abs (desired_position example_config 4 (-3)%float)
     <= Z.max 0 (max_inventory_ example_config - 1
                 + position_size_ example_config).
Proof.
  assert (Hcur : Int32.min_int < 4 <= Int32.max_int)
    by (unfold Int32.min_int, Int32.max_int; lia).
  assert (Hsize : 0 <= position_size_ example_config) by (simpl; lia).
  assert (Hcap : max_inventory_ example_config - 1
                 + position_size_ example_config <= Int32.max_int)
    by (unfold Int32.max_int; simpl; lia).
  split; [exact Hcur|]. split; [exact Hsize|]. split; [exact Hcap|].
  exact (desired_position_within_cap example_config 4 (-3)%float
           Hcur Hsize Hcap).
Defined.

Lemma nan_deviation_targets_flat_witness :
  PrimFloat.eqb (GetVWAP (window_run overflowing_price_run VWAPStrategy_new))
    (GetVWAP (window_run overflowing_price_run VWAPStrategy_new)) = false
  /\ desired_position example_config 3
       (CalculateDeviation 100%float
          (GetVWAP (window_run overflowing_price_run VWAPStrategy_new)))
     = 0.
Proof.
  assert (Hnan : PrimFloat.eqb
                   (GetVWAP (window_run overflowing_price_run VWAPStrategy_new))
                   (GetVWAP (window_run overflowing_price_run VWAPStrategy_new))
                 = false)
    by (vm_compute; reflexivity).
  split; [exact Hnan|].
  exact (proj2 (proj2
    (nan_deviation_targets_flat example_config 3 100%float
       (GetVWAP (window_run overflowing_price_run VWAPStrategy_new))
       (or_introl Hnan)))).
Defined.

Lemma reachable_first_trade :
  reachable microsecond_clock Get_int_strict Get_double_strict Get_bool_strict
    (after_trade microsecond_clock first_trade VWAPStrategy_new).
Proof.
  apply (reachable_trade _ _ _ _ VWAPStrategy_new (host_with 0 [])
           first_trade _ []).
  - apply reachable_new.
  - vm_compute. reflexivity.
Qed.

Lemma reachable_accumulators_witness :
  reachable microsecond_clock Get_int_strict Get_double_strict Get_bool_strict
    (after_trade microsecond_clock first_trade VWAPStrategy_new)
  /\ cumulative_volume_
       (after_trade microsecond_clock first_trade VWAPStrategy_new)
     = Int32.wrap
         (sum_volume
            (vwap_window_
               (after_trade microsecond_clock first_trade VWAPStrategy_new))).
Proof.
  split; [exact reachable_first_trade|].
  exact (proj1 (reachable_accumulators microsecond_clock _ _ _ _
                  reachable_first_trade)).
Defined.

(** ** From signal to order *)

Section SignalToOrder.

Context {D : Type} `{Double D}.

(** X19.  What steps 5 and 6 of OnTrade send together, for an idle
    instrument (no working order, both quote sides valid), a position
    other than INT_MIN and a positive order size: an entry buys or sells
    exactly position_size_ units (at the ask, at the bid); an exit, and
    equally the case where no rule fires, closes the whole position
    held (nothing when flat). *)
Theorem order_for_signal (host : Host) (instrument : Instrument D)
    (s : VWAPStrategy D) (deviation_bps : D) :
  let current_position := position host (symbol instrument) in
  Int32.min_int < current_position <= Int32.max_int ->
  0 < position_size_ s <= Int32.max_int ->
  working_orders host (symbol instrument) = [] ->
  two_sided instrument = true ->
  AdjustPortfolio host instrument
    (desired_position s current_position deviation_bps)
  = match signal s current_position deviation_bps with
    | ENTRY_BUY =>
        [market_order instrument (position_size_ s) ORDER_SIDE_BUY
           (ask (top_quote instrument))]
    | ENTRY_SELL =>
        [market_order instrument (position_size_ s) ORDER_SIDE_SELL
           (bid (top_quote instrument))]
    | EXIT_LONG | EXIT_SHORT | NO_SIGNAL =>
        if current_position =? 0 then []
        else [closing_order instrument current_position]
    end.
Proof.
  intros current_position Hcur Hsize Horders Hquote.
  unfold Int32.min_int, Int32.max_int in Hcur, Hsize.
  assert (Hin : forall z, - 2 ^ 31 <= z <= 2 ^ 31 - 1 -> Int32.wrap z = z).
  { intros z Hz. apply wrap_in_range.
    unfold Int32.in_range, Int32.min_int, Int32.max_int. exact Hz. }
  assert (Hflat : AdjustPortfolio host instrument 0
                  = if current_position =? 0 then []
                    else [closing_order instrument current_position]).
  { assert (Hts : Int32.sub 0 (position host (symbol instrument))
                  = - current_position)
      by (unfold Int32.sub; fold current_position; apply Hin; lia).
    destruct (Z.eqb_spec current_position 0) as [Hzero|Hnonzero].
    - rewrite AdjustPortfolio_zero, Horders; [reflexivity|].
      rewrite Hts. lia.
    - rewrite AdjustPortfolio_nonzero, Horders by (rewrite Hts; lia).
      rewrite (SendOrder_two_sided _ _ Hquote), Hts.
      unfold closing_order, Int32.abs.
      destruct (0 <? current_position) eqn:Hpos.
      + apply Z.ltb_lt in Hpos.
        assert (Hneg : (0 <? - current_position) = false)
          by (apply Z.ltb_ge; lia).
        rewrite Hneg, Hin by lia.
        replace (Z.abs (- current_position)) with current_position by lia.
        reflexivity.
      + apply Z.ltb_ge in Hpos.
        assert (Hneg : (0 <? - current_position) = true)
          by (apply Z.ltb_lt; lia).
        rewrite Hneg, Hin by lia.
        replace (Z.abs (- current_position)) with (- current_position) by lia.
        reflexivity. }
  unfold desired_position.
  destruct (signal s current_position deviation_bps); try exact Hflat.
  - assert (Hts : Int32.sub (Int32.add current_position (position_size_ s))
                    (position host (symbol instrument))
                  = position_size_ s).
    { unfold Int32.sub, Int32.add. fold current_position.
      rewrite wrap_sub_l.
      replace (current_position + position_size_ s - current_position)
        with (position_size_ s) by ring.
      apply Hin. lia. }
    rewrite AdjustPortfolio_nonzero, Horders by (rewrite Hts; lia).
    rewrite (SendOrder_two_sided _ _ Hquote), Hts.
    assert (Hpos : (0 <? position_size_ s) = true) by (apply Z.ltb_lt; lia).
    rewrite Hpos. unfold Int32.abs. rewrite Hin by lia.
    replace (Z.abs (position_size_ s)) with (position_size_ s) by lia.
    reflexivity.
  - assert (Hts : Int32.sub (Int32.sub current_position (position_size_ s))
                    (position host (symbol instrument))
                  = - position_size_ s).
    { unfold Int32.sub. fold current_position.
      rewrite wrap_sub_l.
      replace (current_position - position_size_ s - current_position)
        with (- position_size_ s) by ring.
      apply Hin. lia. }
    rewrite AdjustPortfolio_nonzero, Horders by (rewrite Hts; lia).
    rewrite (SendOrder_two_sided _ _ Hquote), Hts.
    assert (Hpos : (0 <? - position_size_ s) = false)
      by (apply Z.ltb_ge; lia).
    rewrite Hpos. unfold Int32.abs. rewrite Hin by lia.
    replace (Z.abs (- position_size_ s)) with (position_size_ s) by lia.
    reflexivity.
Qed.

Variable ticks_per_second : Z.

(** X20.  OnTrade issues an order action only when, after the trade is
    added and the window pruned, the window is ready and the top quote
    is valid; the action is then the one AdjustPortfolio derives from
    the deviation of the mid-price from the VWAP of that window. *)
Theorem OnTrade_acts_only_when_ready (host : Host)
    (msg : TradeDataEventMsg D) (s s' : VWAPStrategy D)
    (actions : list (TradeAction D)) :
  OnTrade ticks_per_second host msg s = Some (s', actions) ->
  actions <> [] ->
  IsVWAPReady ticks_per_second s' = Some true
  /\ IsValid (top_quote (instrument msg)) = true
  /\ actions
     = AdjustPortfolio host (instrument msg)
         (desired_position s'
            (position host (symbol (instrument msg)))
            (CalculateDeviation (CalculateMidPrice (instrument msg))
               (GetVWAP s'))).
Proof.
  intros Hrun Hacts.
  pose proof (OnTrade_state _ _ _ _ _ _ Hrun) as Hstate.
  revert Hrun. unfold OnTrade. cbn zeta.
  change (vwap_window_seconds_
            (AddTradeToWindow (trade_price msg) (trade_size msg)
               (event_time msg) s))
    with (vwap_window_seconds_ s).
  fold (cutoff_of ticks_per_second msg s).
  fold (after_trade ticks_per_second msg s). rewrite <- Hstate.
  destruct (IsVWAPReady ticks_per_second s') as [[|]|];
    [| intros [= <-]; congruence | discriminate].
  destruct (IsValid (top_quote (instrument msg))); simpl.
  - intros [= <-]. repeat split.
  - intros [= <-]. congruence.
Qed.

End SignalToOrder.

(** ** Binary64: the rules are the same on both sides of the market *)

Lemma SFcompare_opp (x y : spec_float) :
  SFcompare (SFopp x) (SFopp y) = SFcompare y x.
Proof.
  destruct x as [sx|sx| |sx mx ex], y as [sy|sy| |sy my ey];
    try reflexivity;
    try (destruct sx; reflexivity);
    try (destruct sy; reflexivity);
    try (destruct sx, sy; reflexivity).
  destruct sx, sy; try reflexivity; cbn [SFopp SFcompare negb].
  - rewrite (Z.compare_antisym ex ey).
    destruct (ex ?= ey)%Z; cbn [CompOpp]; try reflexivity.
    rewrite Pos.compare_cont_antisym. reflexivity.
  - rewrite (Z.compare_antisym ex ey).
    destruct (ex ?= ey)%Z; cbn [CompOpp]; try reflexivity.
    rewrite Pos.compare_cont_antisym. reflexivity.
Qed.

Lemma SFopp_involutive (x : spec_float) : SFopp (SFopp x) = x.
Proof.
  destruct x as [sg|sg| |sg m e]; try reflexivity; destruct sg; reflexivity.
Qed.

Lemma SFcompare_zero_sign (sg : bool) (x : spec_float) :
  SFcompare (S754_zero sg) x = SFcompare (S754_zero false) x.
Proof. destruct x; reflexivity. Qed.

Lemma SFcompare_zero_sign_r (sg : bool) (x : spec_float) :
  SFcompare x (S754_zero sg) = SFcompare x (S754_zero false).
Proof. destruct x; reflexivity. Qed.

Lemma ltb_opp_opp (x y : float) :
  PrimFloat.ltb (- x) (- y) = PrimFloat.ltb y x.
Proof.
  rewrite !FloatAxioms.ltb_spec, !FloatAxioms.opp_spec. unfold SFltb.
  rewrite SFcompare_opp. reflexivity.
Qed.

Lemma ltb_opp_r (x y : float) :
  PrimFloat.ltb x (- y) = PrimFloat.ltb y (- x).
Proof.
  rewrite !FloatAxioms.ltb_spec, !FloatAxioms.opp_spec. unfold SFltb.
  rewrite <- (SFopp_involutive (Prim2SF x)) at 1.
  rewrite SFcompare_opp. reflexivity.
Qed.

Lemma leb_opp_zero (x : float) : PrimFloat.leb (- x) 0 = PrimFloat.leb 0 x.
Proof.
  rewrite !FloatAxioms.leb_spec, !FloatAxioms.opp_spec. unfold SFleb.
  change (Prim2SF 0) with (S754_zero false).
  rewrite <- (SFcompare_zero_sign_r true).
  change (S754_zero true) with (SFopp (S754_zero false)).
  rewrite SFcompare_opp. reflexivity.
Qed.

Lemma leb_zero_opp (x : float) : PrimFloat.leb 0 (- x) = PrimFloat.leb x 0.
Proof.
  rewrite !FloatAxioms.leb_spec, !FloatAxioms.opp_spec. unfold SFleb.
  change (Prim2SF 0) with (S754_zero false).
  rewrite <- (SFcompare_zero_sign true).
  change (S754_zero true) with (SFopp (S754_zero false)).
  rewrite SFcompare_opp. reflexivity.
Qed.

(** Under a threshold that is not negative the two entry conditions
    never hold together. *)
Lemma entry_conditions_exclusive (threshold deviation_bps : float) :
  PrimFloat.leb 0 threshold = true ->
  PrimFloat.ltb deviation_bps (- threshold) = true ->
  PrimFloat.ltb threshold deviation_bps = false.
Proof.
  rewrite FloatAxioms.leb_spec, !FloatAxioms.ltb_spec, FloatAxioms.opp_spec.
  change (Prim2SF 0) with (S754_zero false).
  unfold SFleb, SFltb.
  destruct (Prim2SF threshold) as [st|st| |st mt et],
           (Prim2SF deviation_bps) as [sd|sd| |sd md ed];
    try discriminate; try reflexivity;
    try (destruct st; try discriminate; try reflexivity;
         destruct sd; try discriminate; reflexivity).
Qed.

(** X21.  In binary64 and under a threshold that is not negative, the
    decision rules are mirror images: negating both the position and the
    deviation turns an exit of a long into an exit of a short, a buy
    entry into a sell entry, and conversely, and leaves "no signal" as
    it is. *)
Theorem signal_mirror (s : VWAPStrategy float) (current_position : Z)
    (deviation_bps : float) :
  PrimFloat.leb 0 (entry_threshold_bps_ s) = true ->
  signal s (- current_position) (PrimFloat.opp deviation_bps)
  = mirror (signal s current_position deviation_bps).
Proof.
  intros Hthr. unfold signal. cbn [dleb dltb dneg of_int ieee754].
  change (double_of_int 0) with 0%float.
  rewrite leb_zero_opp, leb_opp_zero, ltb_opp_opp, ltb_opp_r.
  unfold Int32.abs. rewrite Z.abs_opp.
  assert (Hneg : (0 <? - current_position) = (current_position <? 0)).
  { destruct (Z.ltb_spec 0 (- current_position)),
             (Z.ltb_spec current_position 0); lia || reflexivity. }
  assert (Hpos : (- current_position <? 0) = (0 <? current_position)).
  { destruct (Z.ltb_spec (- current_position) 0),
             (Z.ltb_spec 0 current_position); lia || reflexivity. }
  rewrite Hneg, Hpos.
  destruct (Z.ltb_spec 0 current_position) as [Hlong|Hnotlong];
    destruct (Z.ltb_spec current_position 0) as [Hshort|Hnotshort];
    try lia; cbn [andb].
  - destruct (PrimFloat.leb 0 deviation_bps); [reflexivity|].
    destruct (_ <? max_inventory_ s); [|reflexivity].
    destruct (PrimFloat.ltb deviation_bps (- entry_threshold_bps_ s)) eqn:Hbuy.
    + rewrite (entry_conditions_exclusive _ _ Hthr Hbuy). reflexivity.
    + destruct (PrimFloat.ltb (entry_threshold_bps_ s) deviation_bps);
        reflexivity.
  - destruct (PrimFloat.leb deviation_bps 0); [reflexivity|].
    destruct (_ <? max_inventory_ s); [|reflexivity].
    destruct (PrimFloat.ltb deviation_bps (- entry_threshold_bps_ s)) eqn:Hbuy.
    + rewrite (entry_conditions_exclusive _ _ Hthr Hbuy). reflexivity.
    + destruct (PrimFloat.ltb (entry_threshold_bps_ s) deviation_bps);
        reflexivity.
  - destruct (_ <? max_inventory_ s); [|reflexivity].
    destruct (PrimFloat.ltb deviation_bps (- entry_threshold_bps_ s)) eqn:Hbuy.
    + rewrite (entry_conditions_exclusive _ _ Hthr Hbuy). reflexivity.
    + destruct (PrimFloat.ltb (entry_threshold_bps_ s) deviation_bps);
        reflexivity.
Qed.

Lemma order_for_signal_witness :
  Int32.min_int < position (host_with 3 []) "SPY" <= Int32.max_int
  /\ 0 < position_size_ example_config <= Int32.max_int
  /\ working_orders (host_with 3 []) "SPY" = []
  /\ two_sided (SPY plain_quote) = true
  /\ AdjustPortfolio (host_with 3 []) (SPY plain_quote)
       (desired_position example_config 3 1%float)
     = [closing_order (SPY plain_quote) 3].
Proof.
  assert (Hcur : Int32.min_int < position (host_with 3 []) "SPY"
                 <= Int32.max_int)
    by (unfold Int32.min_int, Int32.max_int; simpl; lia).
  assert (Hsize : 0 < position_size_ example_config <= Int32.max_int)
    by (unfold Int32.max_int; simpl; lia).
  assert (Horders : working_orders (host_with 3 []) "SPY" = [])
    by reflexivity.
  assert (Hquote : two_sided (SPY plain_quote) = true) by reflexivity.
  split; [exact Hcur|]. split; [exact Hsize|]. split; [exact Horders|].
  split; [exact Hquote|].
  exact (order_for_signal (host_with 3 []) (SPY plain_quote) example_config
           1%float Hcur Hsize Horders Hquote).
Defined.

Lemma OnTrade_acts_only_when_ready_witness :
  OnTrade microsecond_clock (host_with 0 []) fourth_trade holding_three_short
  = Some (after_trade microsecond_clock fourth_trade holding_three_short,
          [market_order (SPY plain_quote) 1 ORDER_SIDE_SELL 99.5%float])
  /\ [market_order (SPY plain_quote) 1 ORDER_SIDE_SELL 99.5%float] <> []
  /\ IsVWAPReady microsecond_clock
       (after_trade microsecond_clock fourth_trade holding_three_short)
     = Some true.
Proof.
  assert (Hrun : OnTrade microsecond_clock (host_with 0 []) fourth_trade
                   holding_three_short
                 = Some (after_trade microsecond_clock fourth_trade
                           holding_three_short,
                         [market_order (SPY plain_quote) 1 ORDER_SIDE_SELL
                            99.5%float]))
    by (vm_compute; reflexivity).
  assert (Hacts : [market_order (SPY plain_quote) 1 ORDER_SIDE_SELL 99.5%float]
                  <> [])
    by discriminate.
  split; [exact Hrun|]. split; [exact Hacts|].
  exact (proj1 (OnTrade_acts_only_when_ready microsecond_clock _ _ _ _ _
                  Hrun Hacts)).
Defined.

Lemma signal_mirror_witness :
  PrimFloat.leb 0 (entry_threshold_bps_ example_config) = true
  /\ signal example_config (- 0) (PrimFloat.opp (-3)%float)
     = mirror (signal example_config 0 (-3)%float).
Proof.
  assert (Hthr : PrimFloat.leb 0 (entry_threshold_bps_ example_config) = true)
    by reflexivity.
  split; [exact Hthr|].
  exact (signal_mirror example_config 0 (-3)%float Hthr).
Defined.
